(** * disk_cpu_load: CPU load imposed by a raw sequential disk read

    A shallow embedding of [disk_cpu_load.py] and the properties of its
    measurement pipeline: parsing of the aggregate line of /proc/stat,
    the load computation, the checked subprocess wrapper and the
    orchestration of the script body.

    Python integers are unbounded and are modelled by [Z]; text is modelled
    by [string], whose characters stand for code points 0..255.  Exceptions
    are values of type [exn]; the external world (what [subprocess.run]
    answers, the text read from files, what is printed) is an oracle plus an
    event log threaded through a state-and-exception monad. *)

From Stdlib Require Import ZArith Ascii DecimalString DecimalPos Lia.
From stdpp Require Import base gmap strings list.

Local Open Scope Z_scope.

(** ** Python values, exceptions and outcomes *)

(** The values that occur as keyword arguments of [subprocess.run] in this
    script.  [subprocess.DEVNULL] is the integer -3. *)
Inductive pyval : Type :=
  | VNone
  | VBool (b : bool)
  | VInt (n : Z)
  | VStr (s : string)
  | VStrList (l : list string).

Definition DEVNULL : pyval := VInt (-3).

(** Truth value of a Python object, as tested by [if x:]. *)
Definition truthy (v : pyval) : bool :=
  match v with
  | VNone => false
  | VBool b => b
  | VInt n => negb (n =? 0)
  | VStr s => negb (String.eqb s "")
  | VStrList l => match l with [] => false | _ => true end
  end.

Inductive exn : Type :=
  | AttributeError
  | IndexError
  | ValueError
  | TypeError
  | OSError
  | ZeroDivisionError
  | TimeoutExpired
  | OtherError (name : string)
  | CalledProcessError (returncode : Z)
  | SystemExit (code : Z).

(** Result of evaluating a Python expression or statement: a value, or a
    raised exception. *)
Inductive outcome (A : Type) : Type :=
  | Ok (a : A)
  | Raise (e : exn).
Arguments Ok {A} a.
Arguments Raise {A} e.

Definition is_ok {A} (r : outcome A) : bool :=
  match r with Ok _ => true | Raise _ => false end.

(** ** Text primitives *)

Definition newline : ascii := "010"%char.
Definition space : ascii := " "%char.

(** Characters skipped by [int()] around a literal: the C-locale white space
    (tab, line feed, vertical tab, form feed, carriage return, space) and,
    above 127, the Unicode white space U+0085 and U+00A0. *)
Definition is_space (c : ascii) : bool :=
  let n := N_of_ascii c in
  ((9 <=? n) && (n <=? 13) || (n =? 32) || (n =? 133) || (n =? 160))%N.

Definition digit_value (c : ascii) : option Z :=
  let n := N_of_ascii c in
  if ((48 <=? n) && (n <=? 57))%N then Some (Z.of_N n - 48) else None.

Definition is_digit (c : ascii) : bool :=
  match digit_value c with Some _ => true | None => false end.

Fixpoint lstrip (s : string) : string :=
  match s with
  | String c s' => if is_space c then lstrip s' else s
  | EmptyString => s
  end.

(** The digit loop of [int()] in base 10: digits, with single underscores
    allowed between them.  [prev_us] tells whether the previous character
    was an underscore; the result is the value read, the number of digits
    and the unread rest. *)
Fixpoint scan_digits (prev_us : bool) (acc : Z) (ndigits : nat) (s : string)
  : option (Z * nat * string) :=
  match s with
  | String c s' =>
      match digit_value c with
      | Some d => scan_digits false (10 * acc + d) (S ndigits) s'
      | None =>
          if Ascii.eqb c "_" then
            if prev_us then None else scan_digits true acc ndigits s'
          else if prev_us then None else Some (acc, ndigits, s)
      end
  | EmptyString => if prev_us then None else Some (acc, ndigits, s)
  end.

(** [int(s)] for a string [s]: optional white space, optional sign, a
    non-empty run of digits (underscores as above), optional white space.
    [max_str_digits] is the interpreter's limit on the number of digits
    ([sys.get_int_max_str_digits()], 4300 by default, 0 for no limit; an
    interpreter without the limit behaves as 0). *)
Definition py_int (max_str_digits : nat) (s : string) : outcome Z :=
  let s := lstrip s in
  let '(negative, s) :=
    match s with
    | String c s' =>
        if Ascii.eqb c "+" then (false, s')
        else if Ascii.eqb c "-" then (true, s')
        else (false, s)
    | EmptyString => (false, s)
    end in
  match s with
  | String c _ =>
      if Ascii.eqb c "_" then Raise ValueError
      else
        match scan_digits false 0 0 s with
        | None => Raise ValueError
        | Some (v, n, rest) =>
            if (n =? 0)%nat then Raise ValueError
            else if negb (max_str_digits =? 0)%nat && (max_str_digits <? n)%nat
            then Raise ValueError
            else
              match lstrip rest with
              | EmptyString => Ok (if negative then - v else v)
              | String _ _ => Raise ValueError
              end
        end
  | EmptyString => Raise ValueError
  end.

(** The decimal numeral of an integer, with a minus sign when it is
    negative. *)
Definition decimal_of_Z (n : Z) : string := NilZero.string_of_int (Z.to_int n).

(** [str(n)] for an integer, which is also what an f-string interpolates:
    the decimal numeral, or a [ValueError] when [n] has more digits than the
    interpreter's limit ([max_str_digits] as for [py_int]; the sign does
    not count). *)
Definition py_str (max_str_digits : nat) (n : Z) : outcome string :=
  if negb (max_str_digits =? 0)%nat
     && (max_str_digits <? String.length (decimal_of_Z (Z.abs n)))%nat
  then Raise ValueError
  else Ok (decimal_of_Z n).

(** [s.split(sep)] for a one-character separator: every occurrence of the
    separator cuts, so empty pieces are kept and the result is never empty. *)
Fixpoint str_split (sep : ascii) (s : string) : list string :=
  match s with
  | EmptyString => [EmptyString]
  | String c s' =>
      if Ascii.eqb c sep then EmptyString :: str_split sep s'
      else
        match str_split sep s' with
        | w :: ws => String c w :: ws
        | [] => [String c EmptyString]
        end
  end.

(** [sep.join(l)]. *)
Fixpoint str_join (sep : string) (l : list string) : string :=
  match l with
  | [] => ""
  | [x] => x
  | x :: l' => x +:+ sep +:+ str_join sep l'
  end.

(** [l[1:]]. *)
Definition slice_from_1 {A} (l : list A) : list A := drop 1 l.

(** ** Regular expressions

    The fragment of [re] that the script uses: literal characters, [.] (any
    character but a line feed) and the greedy [.*]. *)
Inductive re_item : Type :=
  | Lit (c : ascii)
  | AnyChar
  | AnyStar.

Fixpoint re_compile (p : string) : list re_item :=
  match p with
  | EmptyString => []
  | String c p' =>
      if Ascii.eqb c "." then
        match p' with
        | String c' p'' =>
            if Ascii.eqb c' "*" then AnyStar :: re_compile p''
            else AnyChar :: re_compile p'
        | EmptyString => [AnyChar]
        end
      else Lit c :: re_compile p'
  end.

(** [re.match(p, s)]: the pattern is tried at the start of [s] only; the
    result is the matched text ([m.group()]), or [None].  [.*] takes as many
    characters as it can and gives back one at a time when the rest of the
    pattern fails. *)
Fixpoint re_match (p : list re_item) : string -> option string :=
  match p with
  | [] => fun _ => Some ""
  | Lit c :: p' => fun s =>
      match s with
      | String c' s' =>
          if Ascii.eqb c c' then String c <$> re_match p' s' else None
      | EmptyString => None
      end
  | AnyChar :: p' => fun s =>
      match s with
      | String c' s' =>
          if Ascii.eqb c' newline then None else String c' <$> re_match p' s'
      | EmptyString => None
      end
  | AnyStar :: p' =>
      fix star (s : string) : option string :=
        match s with
        | String c' s' =>
            if Ascii.eqb c' newline then re_match p' s
            else
              match star s' with
              | Some m => Some (String c' m)
              | None => re_match p' s
              end
        | EmptyString => re_match p' s
        end
  end.

(** [sum(l)] for a list of integers: left to right, from 0. *)
Definition sum (l : list Z) : Z := fold_left Z.add l 0.

(** Floor division [a // b] of Python integers. *)
Definition floordiv (a b : Z) : outcome Z :=
  if b =? 0 then Raise ZeroDivisionError else Ok (a / b).

(** ** The outside world

    The script calls [subprocess.run], reads /proc/stat and prints.  What
    the world answers is given by an environment: the result of the [n]-th
    call of [subprocess.run] and the text of the [n]-th file opened.  Every
    interaction is appended to a log, in the order in which it happens. *)

(** An exception of [subprocess.run] that is not about the status of the
    process: the library refuses the arguments ([TypeError] for an unknown
    or missing keyword, [IndexError] for an empty command, [ValueError],
    [AttributeError]), the time allowed runs out, or any other class
    derived from [Exception], given by its name. *)
Inductive call_error : Type :=
  | CallTypeError
  | CallIndexError
  | CallValueError
  | CallAttributeError
  | CallTimeoutExpired
  | CallOtherError (name : string).

Definition exn_of_call_error (e : call_error) : exn :=
  match e with
  | CallTypeError => TypeError
  | CallIndexError => IndexError
  | CallValueError => ValueError
  | CallAttributeError => AttributeError
  | CallTimeoutExpired => TimeoutExpired
  | CallOtherError name => OtherError name
  end.

(** What a call of [subprocess.run] comes to, before [check] is looked
    at: a process that ran and ended with a return code, a command that the
    system could not start ([OSError]), or a call that the library gave up
    with another exception. *)
Inductive proc_result : Type :=
  | Exited (returncode : Z)
  | SpawnFailed
  | Refused (e : call_error).

Inductive event : Type :=
  | EvPrint (text : string)
  | EvRun (kwargs : gmap string pyval) (res : proc_result)
  | EvRead (path : string) (res : option string).

Record Env : Type := {
  int_max_str_digits : nat;
  spawn : nat -> gmap string pyval -> proc_result;
  file_text : nat -> string -> option string
}.

(** What has happened so far: the number of calls of [subprocess.run], the
    number of files opened, and the log. *)
Record State : Type := {
  spawned : nat;
  opened : nat;
  log : list event
}.

Definition init_state : State := {| spawned := 0; opened := 0; log := [] |}.

Definition M (A : Type) : Type := Env -> State -> State * outcome A.

#[global] Instance M_ret : MRet M := fun A a _ st => (st, Ok a).

#[global] Instance M_bind : MBind M := fun A B f m env st =>
  match m env st with
  | (st', Ok a) => f a env st'
  | (st', Raise e) => (st', Raise e)
  end.

Definition raise {A} (e : exn) : M A := fun _ st => (st, Raise e).

Definition lift {A} (r : outcome A) : M A := fun _ st => (st, r).

Definition emit (ev : event) (st : State) : State :=
  {| spawned := spawned st; opened := opened st; log := log st ++ [ev] |}.

Definition linesep : string := String newline "".

(** [print] with a [sep] keyword: the arguments joined by [sep], then a
    line feed. *)
Definition print (args : list string) (sep : string) : M unit :=
  fun _ st => (emit (EvPrint (str_join sep args +:+ linesep)) st, Ok tt).

(** [open(path).read()]. *)
Definition read_text (path : string) : M string := fun env st =>
  let r := file_text env (opened st) path in
  let st' := {| spawned := spawned st; opened := S (opened st);
                log := log st ++ [EvRead path r] |} in
  match r with
  | Some text => (st', Ok text)
  | None => (st', Raise OSError)
  end.

(** The library and the operating system deal with the command described
    by [kwargs]. *)
Definition os_spawn (kwargs : gmap string pyval) : M proc_result := fun env st =>
  let r := spawn env (spawned st) kwargs in
  ({| spawned := S (spawned st); opened := opened st;
      log := log st ++ [EvRun kwargs r] |}, Ok r).

(** [sys.get_int_max_str_digits()], consulted by [int()] and [str()]. *)
Definition get_int_max_str_digits : M nat :=
  fun env st => (st, Ok (int_max_str_digits env)).

(** An integer interpolated in an f-string. *)
Definition format_int (n : Z) : M string :=
  fun env st => (st, py_str (int_max_str_digits env) n).

Definition sys_exit {A} (code : Z) : M A := raise (SystemExit code).

Definition getitem {A} (l : list A) (i : nat) : M A :=
  match l !! i with
  | Some x => mret x
  | None => raise IndexError
  end.

(** [list(map(f, l))]: left to right, stopping at the first exception. *)
Fixpoint list_map {A B} (f : A -> outcome B) (l : list A) : outcome (list B) :=
  match l with
  | [] => Ok []
  | x :: l' =>
      match f x with
      | Raise e => Raise e
      | Ok y =>
          match list_map f l' with
          | Raise e => Raise e
          | Ok ys => Ok (y :: ys)
          end
      end
  end.

Record CompletedProcess : Type := {
  cp_args : pyval;
  cp_returncode : Z
}.

(** [subprocess.run] on keyword arguments.  Whether the library accepts
    them, whether the command starts and how it ends is for the world to
    say; with a true [check], a non-zero return code is a
    [CalledProcessError]. *)
Definition subprocess_run (kwargs : gmap string pyval) : M CompletedProcess :=
  r ← os_spawn kwargs;
  match r with
  | Refused e => raise (exn_of_call_error e)
  | SpawnFailed => raise OSError
  | Exited retcode =>
      if truthy (default (VBool false) (kwargs !! "check"))
         && negb (retcode =? 0)
      then raise (CalledProcessError retcode)
      else mret {| cp_args := default VNone (kwargs !! "args");
                   cp_returncode := retcode |}
  end.

(** ** The script *)

Definition STAT_FILE_PATH : string := "/proc/stat".

Record Namespace : Type := {
  max_load : Z;
  xfer : Z;
  verbose : bool;
  device_filename : string
}.

Definition compute_cpu_load (start_load end_load : list Z) (verbose_mode : bool)
  : M Z :=
  end_idle ← getitem end_load 3;
  start_idle ← getitem start_load 3;
  let diff_idle := end_idle - start_idle in
  let start_total := sum start_load in
  let end_total := sum end_load in
  let diff_total := end_total - start_total in
  let diff_used := diff_total - diff_idle in
  (if verbose_mode then
     s_start ← format_int start_total;
     s_end ← format_int end_total;
     s_used ← format_int diff_used;
     s_total ← format_int diff_total;
     print [ "Start CPU time = " +:+ s_start;
             "End CPU time = " +:+ s_end;
             "CPU time used = " +:+ s_used;
             "Total elapsed time = " +:+ s_total ] linesep
   else mret tt);;
  if diff_total =? 0 then mret 0 else lift (floordiv (diff_used * 100) diff_total).

Definition get_cpu_load : M (list Z) :=
  text ← read_text STAT_FILE_PATH;
  let match_cpu_stats := re_match (re_compile "cpu .*") text in
  group ← match match_cpu_stats with
          | Some g => mret g
          | None => raise AttributeError
          end;
  max_digits ← get_int_max_str_digits;
  lift (list_map (py_int max_digits)
          (filter (fun s => s ≠ "") (slice_from_1 (str_split space group)))).

Definition run_check_subprocess (kwargs : gmap string pyval) : M unit :=
  fun env st =>
    let res_run : option CompletedProcess := None in
    let kwargs := <["check" := VBool true]> kwargs in
    match subprocess_run kwargs env st with
    | (st', Ok cp) =>
        (* the call returned: [res_run] is bound, and the function ends *)
        let res_run := Some cp in
        (st', Ok tt)
    | (st', Raise (CalledProcessError _)) =>
        (* the call raised before the assignment: [res_run] is unchanged *)
        match res_run with
        | Some cp => sys_exit (cp_returncode cp) env st'
        | None => sys_exit 1 env st'
        end
    | (st', Raise e) => (st', Raise e)
    end.

Definition flush_kwargs (cli_args : Namespace) : gmap string pyval :=
  {[ "args" := VStrList ["blockdev --flushbufs " +:+ device_filename cli_args];
     "shell" := VBool true ]}.

(** The keyword arguments of the [dd] call, [count] being the transfer
    size once interpolated. *)
Definition dd_kwargs_count (cli_args : Namespace) (count : string)
  : gmap string pyval :=
  {[ "args" := VStrList [ "dd";
                          "if=" +:+ device_filename cli_args;
                          "of=/dev/null";
                          "bs=1048576";
                          "count=" +:+ count ];
     "stdout" := DEVNULL;
     "stderr" := DEVNULL ]}.

Definition dd_kwargs (cli_args : Namespace) : gmap string pyval :=
  dd_kwargs_count cli_args (decimal_of_Z (xfer cli_args)).

(** The body of [if __name__ == "__main__":], after [parse_cli()]. *)
Definition main (cli_args : Namespace) : M unit :=
  s_xfer ← format_int (xfer cli_args);
  s_max_load ← format_int (max_load cli_args);
  print [ "Testing CPU load when reading " +:+ s_xfer
            +:+ " MiB from " +:+ device_filename cli_args;
          "Maximum acceptable CPU load is " +:+ s_max_load ]
        linesep;;
  run_check_subprocess (flush_kwargs cli_args);;
  start_load ← get_cpu_load;
  (if verbose cli_args then print ["Beginning disk read...."] " " else mret tt);;
  s_count ← format_int (xfer cli_args);
  run_check_subprocess (dd_kwargs_count cli_args s_count);;
  (if verbose cli_args then print ["Disk read complete!"] " " else mret tt);;
  end_load ← get_cpu_load;
  cpu_load ← compute_cpu_load start_load end_load (verbose cli_args);
  s_load ← format_int cpu_load;
  print ["Detected disk read CPU load is " +:+ s_load] " ";;
  if cpu_load >? max_load cli_args then
    print ["*** DISK CPU LOAD TEST HAS FAILED! ***"] " ";;
    sys_exit 1
  else mret tt.

(** Exit status of the interpreter: 0 when the script runs to its end, the
    low byte of the code of an uncaught [SystemExit], and 1 for any other
    uncaught exception. *)
Definition exit_status (r : outcome unit) : Z :=
  match r with
  | Ok _ => 0
  | Raise (SystemExit code) => Z.modulo code 256
  | Raise _ => 1
  end.

(** A run of the script in a fresh process. *)
Definition run_script (env : Env) (cli_args : Namespace) : State * outcome unit :=
  main cli_args env init_state.

(** ** Vocabulary of the specification *)

(** [q] is the floor of the rational [a / b]. *)
Definition is_floor_quotient (a b q : Z) : Prop :=
  (0 < b /\ q * b <= a < (q + 1) * b) \/
  (b < 0 /\ (q + 1) * b < a <= q * b).

(** The integer has no more digits than the interpreter lets [int()] read
    and [str()] write. *)
Definition within_digit_limit (max_digits : nat) (n : Z) : Prop :=
  max_digits = 0%nat \/
  (String.length (decimal_of_Z (Z.abs n)) <= max_digits)%nat.

(** The four numbers of the verbose report of [compute_cpu_load], in the
    order in which they are interpolated. *)
Definition report_quantities (start_load end_load : list Z) : list Z :=
  let diff_idle := default 0 (end_load !! 3%nat) - default 0 (start_load !! 3%nat) in
  let diff_total := sum end_load - sum start_load in
  [sum start_load; sum end_load; diff_total - diff_idle; diff_total].

(** The verbose report can be written. *)
Definition report_printable (max_digits : nat) (start_load end_load : list Z)
  : Prop :=
  Forall (within_digit_limit max_digits) (report_quantities start_load end_load).

(** The text up to the first line feed. *)
Fixpoint first_line (s : string) : string :=
  match s with
  | String c s' => if Ascii.eqb c newline then "" else String c (first_line s')
  | EmptyString => ""
  end.

(** The non-empty pieces between the spaces of a line. *)
Definition fields (line : string) : list string :=
  filter (fun s => s ≠ "") (str_split space line).

(** What [get_cpu_load] makes of the text it has read. *)
Definition parse_cpu_stats (max_digits : nat) (text : string) : outcome (list Z) :=
  match re_match (re_compile "cpu .*") text with
  | Some g =>
      list_map (py_int max_digits)
        (filter (fun s => s ≠ "") (slice_from_1 (str_split space g)))
  | None => Raise AttributeError
  end.

(** [s] begins with [p]. *)
Fixpoint starts_with (p s : string) : bool :=
  match p, s with
  | EmptyString, _ => true
  | String a p', String b s' => Ascii.eqb a b && starts_with p' s'
  | String _ _, EmptyString => false
  end.

(** An aggregate line: the token [cpu], then white space. *)
Definition is_aggregate_line (l : string) : bool :=
  starts_with "cpu" l
  && match String.get 3 l with Some w => is_space w | None => false end.

Fixpoint no_newline (s : string) : bool :=
  match s with
  | String c s' => negb (Ascii.eqb c newline) && no_newline s'
  | EmptyString => true
  end.

Definition lines (text : string) : list string := str_split newline text.

Definition aggregate_line_absent (text : string) : bool :=
  forallb (fun l => negb (is_aggregate_line l)) (lines text).

Fixpoint all_digits (s : string) : bool :=
  match s with
  | String c s' => is_digit c && all_digits s'
  | EmptyString => true
  end.

(** The number that a run of decimal digits denotes, most significant digit
    first. *)
Fixpoint decimal_value_from (acc : Z) (s : string) : Z :=
  match s with
  | String c s' => decimal_value_from (10 * acc + default 0 (digit_value c)) s'
  | EmptyString => acc
  end.

Definition decimal_value (s : string) : Z := decimal_value_from 0 s.

(** A token made of digits only, short enough for the interpreter. *)
Definition digit_token (max_digits : nat) (s : string) : Prop :=
  all_digits s = true /\
  (max_digits = 0%nat \/ (String.length s <= max_digits)%nat).

#[global] Instance pyval_eq_dec : EqDecision pyval.
Proof. solve_decision. Defined.

(** The four external steps of a measurement. *)
Inductive op : Type :=
  | OpFlush
  | OpSnapshot
  | OpBulkRead
  | OpOther.

Definition op_of_event (cli_args : Namespace) (ev : event) : option op :=
  match ev with
  | EvPrint _ => None
  | EvRead _ _ => Some OpSnapshot
  | EvRun kwargs _ =>
      if decide (kwargs !! "args" = flush_kwargs cli_args !! "args")
      then Some OpFlush
      else if decide (kwargs !! "args" = dd_kwargs cli_args !! "args")
      then Some OpBulkRead
      else Some OpOther
  end.

Definition external_ops (cli_args : Namespace) (l : list event) : list op :=
  omap (op_of_event cli_args) l.

(** A step that did not do its work: a call of [subprocess.run] that was
    refused, a process that could not be started or ended with a non-zero
    status, a file that could not be read, or a
    text from which no snapshot comes out. *)
Definition event_failed (max_digits : nat) (ev : event) : bool :=
  match ev with
  | EvPrint _ => false
  | EvRun _ (Exited rc) => negb (rc =? 0)
  | EvRun _ SpawnFailed => true
  | EvRun _ (Refused _) => true
  | EvRead _ None => true
  | EvRead _ (Some text) => negb (is_ok (parse_cpu_stats max_digits text))
  end.

(** The keyword arguments that reach [subprocess.run]. *)
Definition checked (kwargs : gmap string pyval) : gmap string pyval :=
  <["check" := VBool true]> kwargs.

(** The snapshot that the [n]-th read of /proc/stat gives. *)
Definition snapshot_at (env : Env) (n : nat) : outcome (list Z) :=
  match file_text env n STAT_FILE_PATH with
  | Some text => parse_cpu_stats (int_max_str_digits env) text
  | None => Raise OSError
  end.

(** The load of a run: [compute_cpu_load] on the first and the second
    snapshot. *)
Definition measured_load (env : Env) (cli_args : Namespace) : outcome Z :=
  match snapshot_at env 0, snapshot_at env 1 with
  | Ok start_load, Ok end_load =>
      (compute_cpu_load start_load end_load (verbose cli_args) env init_state).2
  | Raise e, _ => Raise e
  | _, Raise e => Raise e
  end.

(** *** The ways a run can go

    The events of a run, named after the step that causes them. *)

Definition flush_result (env : Env) (cli_args : Namespace) : proc_result :=
  spawn env 0 (checked (flush_kwargs cli_args)).

Definition dd_result (env : Env) (cli_args : Namespace) : proc_result :=
  spawn env 1 (checked (dd_kwargs cli_args)).

(** What [run_check_subprocess] makes of the end of the process. *)
Definition run_result (r : proc_result) : outcome unit :=
  match r with
  | Exited rc => if rc =? 0 then Ok tt else Raise (SystemExit 1)
  | SpawnFailed => Raise OSError
  | Refused e => Raise (exn_of_call_error e)
  end.

(** The arguments are such as [parse_cli] returns them: its integers come
    from [int()] applied to an argument string, or are the defaults, so
    they have no more digits than the interpreter's limit. *)
Definition parsed_args (env : Env) (cli_args : Namespace) : Prop :=
  within_digit_limit (int_max_str_digits env) (xfer cli_args) /\
  within_digit_limit (int_max_str_digits env) (max_load cli_args).

Definition ev_banner (cli_args : Namespace) : event :=
  EvPrint
    (str_join linesep
       [ "Testing CPU load when reading " +:+ decimal_of_Z (xfer cli_args)
           +:+ " MiB from " +:+ device_filename cli_args;
         "Maximum acceptable CPU load is " +:+ decimal_of_Z (max_load cli_args) ]
     +:+ linesep).

Definition ev_flush (env : Env) (cli_args : Namespace) : event :=
  EvRun (checked (flush_kwargs cli_args)) (flush_result env cli_args).

Definition ev_dd (env : Env) (cli_args : Namespace) : event :=
  EvRun (checked (dd_kwargs cli_args)) (dd_result env cli_args).

Definition ev_read (env : Env) (n : nat) : event :=
  EvRead STAT_FILE_PATH (file_text env n STAT_FILE_PATH).

(** The report that [compute_cpu_load] prints in verbose mode. *)
Definition report_text (start_load end_load : list Z) : string :=
  match report_quantities start_load end_load with
  | [start_total; end_total; diff_used; diff_total] =>
      str_join linesep
        [ "Start CPU time = " +:+ decimal_of_Z start_total;
          "End CPU time = " +:+ decimal_of_Z end_total;
          "CPU time used = " +:+ decimal_of_Z diff_used;
          "Total elapsed time = " +:+ decimal_of_Z diff_total ]
  | _ => ""
  end.

Definition ev_report (start_load end_load : list Z) : event :=
  EvPrint (report_text start_load end_load +:+ linesep).

Definition ev_detected (load : Z) : event :=
  EvPrint (("Detected disk read CPU load is " +:+ decimal_of_Z load)
           +:+ linesep).

Definition ev_test_failed : event :=
  EvPrint ("*** DISK CPU LOAD TEST HAS FAILED! ***" +:+ linesep).

(** A line printed in verbose mode only. *)
Definition say (verbose_mode : bool) (text : string) : list event :=
  if verbose_mode then [EvPrint (text +:+ linesep)] else [].

(** The report, printed in verbose mode only. *)
Definition say_report (verbose_mode : bool) (start_load end_load : list Z)
  : list event :=
  if verbose_mode then [ev_report start_load end_load] else [].

(** The log and the outcome of a run, by the step at which it ends. *)
Inductive run_shape (env : Env) (cli_args : Namespace)
  : list event -> outcome unit -> Prop :=
  | run_banner_failed :
      ~ parsed_args env cli_args ->
      run_shape env cli_args [] (Raise ValueError)
  | run_flush_failed (e : exn) :
      parsed_args env cli_args ->
      run_result (flush_result env cli_args) = Raise e ->
      run_shape env cli_args
        [ev_banner cli_args; ev_flush env cli_args]
        (Raise e)
  | run_first_snapshot_failed (e : exn) :
      parsed_args env cli_args ->
      flush_result env cli_args = Exited 0 ->
      snapshot_at env 0 = Raise e ->
      run_shape env cli_args
        [ev_banner cli_args; ev_flush env cli_args; ev_read env 0]
        (Raise e)
  | run_dd_failed (start_load : list Z) (e : exn) :
      parsed_args env cli_args ->
      flush_result env cli_args = Exited 0 ->
      snapshot_at env 0 = Ok start_load ->
      run_result (dd_result env cli_args) = Raise e ->
      run_shape env cli_args
        ([ev_banner cli_args; ev_flush env cli_args; ev_read env 0]
           ++ say (verbose cli_args) "Beginning disk read...."
           ++ [ev_dd env cli_args])
        (Raise e)
  | run_second_snapshot_failed (start_load : list Z) (e : exn) :
      parsed_args env cli_args ->
      flush_result env cli_args = Exited 0 ->
      snapshot_at env 0 = Ok start_load ->
      dd_result env cli_args = Exited 0 ->
      snapshot_at env 1 = Raise e ->
      run_shape env cli_args
        ([ev_banner cli_args; ev_flush env cli_args; ev_read env 0]
           ++ say (verbose cli_args) "Beginning disk read...."
           ++ [ev_dd env cli_args]
           ++ say (verbose cli_args) "Disk read complete!"
           ++ [ev_read env 1])
        (Raise e)
  | run_compute_failed (start_load end_load : list Z) (e : exn) :
      parsed_args env cli_args ->
      flush_result env cli_args = Exited 0 ->
      snapshot_at env 0 = Ok start_load ->
      dd_result env cli_args = Exited 0 ->
      snapshot_at env 1 = Ok end_load ->
      measured_load env cli_args = Raise e ->
      run_shape env cli_args
        ([ev_banner cli_args; ev_flush env cli_args; ev_read env 0]
           ++ say (verbose cli_args) "Beginning disk read...."
           ++ [ev_dd env cli_args]
           ++ say (verbose cli_args) "Disk read complete!"
           ++ [ev_read env 1])
        (Raise e)
  | run_detected_failed (start_load end_load : list Z) (load : Z) :
      parsed_args env cli_args ->
      flush_result env cli_args = Exited 0 ->
      snapshot_at env 0 = Ok start_load ->
      dd_result env cli_args = Exited 0 ->
      snapshot_at env 1 = Ok end_load ->
      measured_load env cli_args = Ok load ->
      ~ within_digit_limit (int_max_str_digits env) load ->
      run_shape env cli_args
        ([ev_banner cli_args; ev_flush env cli_args; ev_read env 0]
           ++ say (verbose cli_args) "Beginning disk read...."
           ++ [ev_dd env cli_args]
           ++ say (verbose cli_args) "Disk read complete!"
           ++ [ev_read env 1]
           ++ say_report (verbose cli_args) start_load end_load)
        (Raise ValueError)
  | run_load_exceeds (start_load end_load : list Z) (load : Z) :
      parsed_args env cli_args ->
      flush_result env cli_args = Exited 0 ->
      snapshot_at env 0 = Ok start_load ->
      dd_result env cli_args = Exited 0 ->
      snapshot_at env 1 = Ok end_load ->
      measured_load env cli_args = Ok load ->
      within_digit_limit (int_max_str_digits env) load ->
      max_load cli_args < load ->
      run_shape env cli_args
        ([ev_banner cli_args; ev_flush env cli_args; ev_read env 0]
           ++ say (verbose cli_args) "Beginning disk read...."
           ++ [ev_dd env cli_args]
           ++ say (verbose cli_args) "Disk read complete!"
           ++ [ev_read env 1]
           ++ say_report (verbose cli_args) start_load end_load
           ++ [ev_detected load; ev_test_failed])
        (Raise (SystemExit 1))
  | run_load_accepted (start_load end_load : list Z) (load : Z) :
      parsed_args env cli_args ->
      flush_result env cli_args = Exited 0 ->
      snapshot_at env 0 = Ok start_load ->
      dd_result env cli_args = Exited 0 ->
      snapshot_at env 1 = Ok end_load ->
      measured_load env cli_args = Ok load ->
      within_digit_limit (int_max_str_digits env) load ->
      load <= max_load cli_args ->
      run_shape env cli_args
        ([ev_banner cli_args; ev_flush env cli_args; ev_read env 0]
           ++ say (verbose cli_args) "Beginning disk read...."
           ++ [ev_dd env cli_args]
           ++ say (verbose cli_args) "Disk read complete!"
           ++ [ev_read env 1]
           ++ say_report (verbose cli_args) start_load end_load
           ++ [ev_detected load])
        (Ok tt).

(** The state after the [n]-th call of [subprocess.run], on [kwargs]. *)
Definition after_run (env : Env) (st : State) (kwargs : gmap string pyval)
  : State :=
  {| spawned := S (spawned st); opened := opened st;
     log := log st ++ [EvRun kwargs (spawn env (spawned st) kwargs)] |}.

(** Every failed step of a log is its last event. *)
Fixpoint failures_last (max_digits : nat) (l : list event) : Prop :=
  match l with
  | [] => True
  | ev :: l' =>
      (event_failed max_digits ev = true -> l' = []) /\
      failures_last max_digits l'
  end.

(** Every call of [subprocess.run] in a log was made with [check] set, and
    one that did not come to a process ending with status 0 is the last
    event. *)
Fixpoint runs_checked (l : list event) : Prop :=
  match l with
  | [] => True
  | ev :: l' =>
      match ev with
      | EvRun kwargs res =>
          kwargs !! "check" = Some (VBool true) /\
          (res <> Exited 0 -> l' = [])
      | _ => True
      end /\ runs_checked l'
  end.

(** ** Sample worlds *)

Definition text_of_lines (l : list string) : string :=
  str_join linesep l +:+ linesep.

(** A world with the interpreter's default digit limit, 4300, in which
    the [n]-th process ends with status [statuses !! n] (0 when the list is
    too short) and the [n]-th read gives [texts !! n] (an error when the list
    is too short). *)
Definition scripted_env (statuses : list Z) (texts : list string) : Env :=
  {| int_max_str_digits := 4300;
     spawn := fun n _ => Exited (default 0 (statuses !! n));
     file_text := fun n _ => texts !! n |}.

Definition default_args : Namespace :=
  {| max_load := 30; xfer := 4096; verbose := false;
     device_filename := "/dev/sda" |}.

Definition stat_before : string :=
  text_of_lines ["cpu  10 0 0 90 0"; "cpu0 10 0 0 90 0"].

Definition stat_after : string :=
  text_of_lines ["cpu  20 0 0 100 0"; "cpu0 20 0 0 100 0"].

Definition stat_light : string :=
  text_of_lines ["cpu  13 0 0 107 0"; "cpu0 13 0 0 107 0"].

Definition stat_aggregate_second : string :=
  text_of_lines ["intr 7"; "cpu 1 2 3 4"].

Definition stat_negative : string :=
  text_of_lines ["cpu 1 -2 3 4"].

Definition stat_per_core_only : string :=
  text_of_lines ["cpu0 1 2 3 4"; "cpu1 5 6 7 8"].

Definition stat_bad_field : string :=
  text_of_lines ["cpu 1 2 x 4"].

(** A world like [scripted_env] in which the interpreter runs with the
    smallest positive digit limit that it accepts, 640
    ([sys.set_int_max_str_digits(640)]).  What it shows with numbers of 640
    digits, the default limit shows with numbers of 4300 digits. *)
Definition short_limit_env (statuses : list Z) (texts : list string) : Env :=
  {| int_max_str_digits := 640;
     spawn := fun n _ => Exited (default 0 (statuses !! n));
     file_text := fun n _ => texts !! n |}.

(** Two texts whose counters have 640 digits: a first snapshot
    [10^639, 0, 0, 0] and a second one [0, 0, 0, 10^639 + 1]. *)
Definition stat_huge_before : string :=
  text_of_lines ["cpu " +:+ decimal_of_Z (10 ^ 639) +:+ " 0 0 0"].

Definition stat_huge_after : string :=
  text_of_lines ["cpu 0 0 0 " +:+ decimal_of_Z (10 ^ 639 + 1)].

(** ** Vocabulary of the further properties *)

(** The same arguments with another verbose flag. *)
Definition with_verbose (b : bool) (cli_args : Namespace) : Namespace :=
  {| max_load := max_load cli_args; xfer := xfer cli_args; verbose := b;
     device_filename := device_filename cli_args |}.

Fixpoint spaces (n : nat) : string :=
  match n with
  | O => ""
  | S n' => String space (spaces n')
  end.

(** Counters written the way /proc/stat writes them: each one in decimal,
    after [g] extra spaces, and one space between two counters. *)
Definition render_counters (l : list (nat * Z)) : string :=
  str_join " " (map (fun p => spaces p.1 +:+ decimal_of_Z p.2) l).

Fixpoint no_space (s : string) : bool :=
  match s with
  | String c s' => negb (Ascii.eqb c space) && no_space s'
  | EmptyString => true
  end.

Definition is_print (ev : event) : bool :=
  match ev with EvPrint _ => true | _ => false end.

(** The events of a log that are not prints. *)
Definition steps_of (l : list event) : list event :=
  filter (fun ev => is_print ev = false) l.

(** The digit limit is one that the interpreter accepts: 0, for no limit,
    or at least 640. *)
Definition interpreter_limit (max_digits : nat) : Prop :=
  max_digits = 0%nat \/ (640 <= max_digits)%nat.

(** The banner can be printed. *)
Definition banner_outcome (env : Env) (cli_args : Namespace) : outcome unit :=
  match py_str (int_max_str_digits env) (xfer cli_args),
        py_str (int_max_str_digits env) (max_load cli_args) with
  | Ok _, Ok _ => Ok tt
  | Raise e, _ => Raise e
  | _, Raise e => Raise e
  end.

(** The outcome of a run, read off what the world answers. *)
Definition expected_outcome (env : Env) (cli_args : Namespace) : outcome unit :=
  match banner_outcome env cli_args with
  | Raise e => Raise e
  | Ok _ =>
  match run_result (flush_result env cli_args) with
  | Raise e => Raise e
  | Ok _ =>
      match snapshot_at env 0 with
      | Raise e => Raise e
      | Ok _ =>
          match run_result (dd_result env cli_args) with
          | Raise e => Raise e
          | Ok _ =>
              match measured_load env cli_args with
              | Raise e => Raise e
              | Ok load =>
                  match py_str (int_max_str_digits env) load with
                  | Raise e => Raise e
                  | Ok _ =>
                      if load >? max_load cli_args then Raise (SystemExit 1)
                      else Ok tt
                  end
              end
          end
      end
  end
  end.

(** The steps of a run, read off what the world answers. *)
Definition expected_steps (env : Env) (cli_args : Namespace) : list event :=
  match banner_outcome env cli_args with
  | Raise _ => []
  | Ok _ =>
  ev_flush env cli_args ::
  match run_result (flush_result env cli_args) with
  | Raise _ => []
  | Ok _ =>
      ev_read env 0 ::
      match snapshot_at env 0 with
      | Raise _ => []
      | Ok _ =>
          ev_dd env cli_args ::
          match run_result (dd_result env cli_args) with
          | Raise _ => []
          | Ok _ => [ev_read env 1]
          end
      end
  end
  end.
(** ** Floor division *)

Lemma Z_div_is_floor (a b : Z) : b <> 0 -> is_floor_quotient a b (a / b).
Proof.
  intros Hb. unfold is_floor_quotient.
  pose proof (Z.div_mod a b Hb) as Hdm.
  destruct (Z_lt_ge_dec 0 b) as [Hpos | Hneg].
  - left. pose proof (Z.mod_pos_bound a b Hpos). nia.
  - right. assert (Hlt : b < 0) by lia.
    pose proof (Z.mod_neg_bound a b Hlt). nia.
Qed.

Lemma is_floor_quotient_unique (a b q q' : Z) :
  is_floor_quotient a b q -> is_floor_quotient a b q' -> q = q'.
Proof. unfold is_floor_quotient. intros [[? ?] | [? ?]] [[? ?] | [? ?]]; nia. Qed.

Lemma floordiv_nonzero (a b : Z) : b <> 0 -> floordiv a b = Ok (a / b).
Proof.
  intros Hb. unfold floordiv.
  destruct (Z.eqb_spec b 0); [contradiction | reflexivity].
Qed.

(** ** Writing an integer *)

Lemma within_digit_limit_dec (max_digits : nat) (n : Z) :
  {within_digit_limit max_digits n} + {~ within_digit_limit max_digits n}.
Proof.
  unfold within_digit_limit.
  destruct (Nat.eq_dec max_digits 0%nat) as [-> | Hne]; [left; left; reflexivity |].
  destruct (le_dec (String.length (decimal_of_Z (Z.abs n))) max_digits)
    as [Hle | Hgt]; [left; right; exact Hle | right; intros [? | ?]; contradiction].
Qed.

(** [str()] writes the numeral of an integer within the limit. *)
Lemma py_str_within (max_digits : nat) (n : Z) :
  within_digit_limit max_digits n ->
  py_str max_digits n = Ok (decimal_of_Z n).
Proof.
  unfold py_str, within_digit_limit. intros [-> | Hle]; [reflexivity |].
  apply Nat.ltb_ge in Hle. rewrite Hle, andb_false_r. reflexivity.
Qed.

(** [str()] refuses an integer beyond the limit. *)
Lemma py_str_beyond (max_digits : nat) (n : Z) :
  ~ within_digit_limit max_digits n ->
  py_str max_digits n = Raise ValueError.
Proof.
  unfold py_str, within_digit_limit. intros Hno.
  destruct (Nat.eqb_spec max_digits 0%nat) as [-> | Hne]; [tauto |].
  destruct (Nat.ltb_spec max_digits (String.length (decimal_of_Z (Z.abs n))))
    as [_ | Hle]; [reflexivity | tauto].
Qed.

Lemma py_str_ok (max_digits : nat) (n : Z) (s : string) :
  py_str max_digits n = Ok s ->
  within_digit_limit max_digits n /\ s = decimal_of_Z n.
Proof.
  destruct (within_digit_limit_dec max_digits n) as [Hin | Hout].
  - rewrite (py_str_within _ _ Hin). intros [= <-]. auto.
  - rewrite (py_str_beyond _ _ Hout). discriminate.
Qed.

Lemma py_str_raise (max_digits : nat) (n : Z) (e : exn) :
  py_str max_digits n = Raise e ->
  ~ within_digit_limit max_digits n /\ e = ValueError.
Proof.
  destruct (within_digit_limit_dec max_digits n) as [Hin | Hout].
  - rewrite (py_str_within _ _ Hin). discriminate.
  - rewrite (py_str_beyond _ _ Hout). intros [= <-]. auto.
Qed.

(** The sign does not count. *)
Lemma within_digit_limit_opp (max_digits : nat) (n : Z) :
  within_digit_limit max_digits (- n) <-> within_digit_limit max_digits n.
Proof. unfold within_digit_limit. rewrite Z.abs_opp. reflexivity. Qed.

(** ** The load computation *)

Lemma bind_eval {A B} (m : M A) (f : A -> M B) (env : Env) (st : State) :
  (m ≫= f) env st =
    match m env st with
    | (st', Ok a) => f a env st'
    | (st', Raise e) => (st', Raise e)
    end.
Proof. reflexivity. Qed.

Lemma print_eval (args : list string) (sep : string) (env : Env) (st : State) :
  print args sep env st
  = (emit (EvPrint (str_join sep args +:+ linesep)) st, Ok tt).
Proof. reflexivity. Qed.

Lemma mret_eval {A} (a : A) (env : Env) (st : State) :
  (mret a : M A) env st = (st, Ok a).
Proof. reflexivity. Qed.

Lemma sys_exit_eval {A} (code : Z) (env : Env) (st : State) :
  (sys_exit code : M A) env st = (st, Raise (SystemExit code)).
Proof. reflexivity. Qed.

Lemma format_int_eval (n : Z) (env : Env) (st : State) :
  format_int n env st = (st, py_str (int_max_str_digits env) n).
Proof. reflexivity. Qed.

Lemma report_quantities_idle (start_load end_load : list Z)
    (start_idle end_idle : Z) :
  start_load !! 3%nat = Some start_idle ->
  end_load !! 3%nat = Some end_idle ->
  report_quantities start_load end_load
  = [ sum start_load; sum end_load;
      sum end_load - sum start_load - (end_idle - start_idle);
      sum end_load - sum start_load ].
Proof. intros Hs He. unfold report_quantities. rewrite Hs, He. reflexivity. Qed.

Lemma compute_cpu_load_short (start_load end_load : list Z) (verbose_mode : bool)
    (env : Env) (st : State) :
  start_load !! 3%nat = None \/ end_load !! 3%nat = None ->
  compute_cpu_load start_load end_load verbose_mode env st = (st, Raise IndexError).
Proof.
  intros H. unfold compute_cpu_load, getitem.
  destruct (end_load !! 3%nat) eqn:He; [| reflexivity].
  destruct H as [H | H]; [| discriminate]. rewrite H. reflexivity.
Qed.

(** Without the verbose flag the computation is silent and returns the
    load. *)
Lemma compute_cpu_load_quiet (start_load end_load : list Z)
    (env : Env) (st : State) (start_idle end_idle : Z) :
  start_load !! 3%nat = Some start_idle ->
  end_load !! 3%nat = Some end_idle ->
  compute_cpu_load start_load end_load false env st =
    (st,
     let diff_total := sum end_load - sum start_load in
     if diff_total =? 0 then Ok 0
     else Ok ((diff_total - (end_idle - start_idle)) * 100 / diff_total)).
Proof.
  intros Hs He. unfold compute_cpu_load, getitem. rewrite Hs, He.
  repeat (rewrite bind_eval, mret_eval; cbv beta iota). cbv zeta.
  destruct (Z.eqb_spec (sum end_load - sum start_load) 0) as [Hz | Hz];
    [reflexivity |].
  unfold lift. rewrite floordiv_nonzero by exact Hz. reflexivity.
Qed.

(** With the verbose flag, and four quantities that can be written, the
    computation prints its report and returns the load. *)
Lemma compute_cpu_load_verbose (start_load end_load : list Z)
    (env : Env) (st : State) (start_idle end_idle : Z) :
  start_load !! 3%nat = Some start_idle ->
  end_load !! 3%nat = Some end_idle ->
  report_printable (int_max_str_digits env) start_load end_load ->
  compute_cpu_load start_load end_load true env st =
    (emit (ev_report start_load end_load) st,
     let diff_total := sum end_load - sum start_load in
     if diff_total =? 0 then Ok 0
     else Ok ((diff_total - (end_idle - start_idle)) * 100 / diff_total)).
Proof.
  intros Hs He Hp. unfold report_printable in Hp.
  unfold ev_report, report_text.
  rewrite (report_quantities_idle _ _ _ _ Hs He) in *.
  inversion Hp as [| ? ? H1 Hp1]; subst.
  inversion Hp1 as [| ? ? H2 Hp2]; subst.
  inversion Hp2 as [| ? ? H3 Hp3]; subst.
  inversion Hp3 as [| ? ? H4 _]; subst.
  unfold compute_cpu_load, getitem. rewrite Hs, He.
  repeat (rewrite bind_eval, mret_eval; cbv beta iota). cbv zeta.
  rewrite !bind_eval, format_int_eval, (py_str_within _ _ H1). cbv beta iota.
  rewrite bind_eval, format_int_eval, (py_str_within _ _ H2). cbv beta iota.
  rewrite bind_eval, format_int_eval, (py_str_within _ _ H3). cbv beta iota.
  rewrite bind_eval, format_int_eval, (py_str_within _ _ H4). cbv beta iota.
  rewrite print_eval.
  destruct (Z.eqb_spec (sum end_load - sum start_load) 0) as [Hz | Hz];
    [reflexivity |].
  unfold lift. rewrite floordiv_nonzero by exact Hz. reflexivity.
Qed.

(** With the verbose flag and a quantity that cannot be written, the
    computation raises [ValueError] before it prints. *)
Lemma compute_cpu_load_unprintable (start_load end_load : list Z)
    (env : Env) (st : State) (start_idle end_idle : Z) :
  start_load !! 3%nat = Some start_idle ->
  end_load !! 3%nat = Some end_idle ->
  ~ report_printable (int_max_str_digits env) start_load end_load ->
  compute_cpu_load start_load end_load true env st = (st, Raise ValueError).
Proof.
  intros Hs He Hp. unfold report_printable in Hp.
  rewrite (report_quantities_idle _ _ _ _ Hs He) in Hp.
  unfold compute_cpu_load, getitem. rewrite Hs, He.
  repeat (rewrite bind_eval, mret_eval; cbv beta iota). cbv zeta.
  rewrite !bind_eval, format_int_eval.
  destruct (within_digit_limit_dec (int_max_str_digits env) (sum start_load))
    as [H1 | H1]; [| rewrite (py_str_beyond _ _ H1); reflexivity].
  rewrite (py_str_within _ _ H1). cbv beta iota.
  rewrite bind_eval, format_int_eval.
  destruct (within_digit_limit_dec (int_max_str_digits env) (sum end_load))
    as [H2 | H2]; [| rewrite (py_str_beyond _ _ H2); reflexivity].
  rewrite (py_str_within _ _ H2). cbv beta iota.
  rewrite bind_eval, format_int_eval.
  destruct (within_digit_limit_dec (int_max_str_digits env)
              (sum end_load - sum start_load - (end_idle - start_idle)))
    as [H3 | H3]; [| rewrite (py_str_beyond _ _ H3); reflexivity].
  rewrite (py_str_within _ _ H3). cbv beta iota.
  rewrite bind_eval, format_int_eval.
  destruct (within_digit_limit_dec (int_max_str_digits env)
              (sum end_load - sum start_load))
    as [H4 | H4]; [| rewrite (py_str_beyond _ _ H4); reflexivity].
  exfalso. apply Hp. repeat (constructor; [assumption |]). constructor.
Qed.

Lemma report_printable_dec (max_digits : nat) (start_load end_load : list Z) :
  {report_printable max_digits start_load end_load}
  + {~ report_printable max_digits start_load end_load}.
Proof.
  unfold report_printable. apply Forall_dec. intros n.
  apply within_digit_limit_dec.
Qed.

(** The value that [compute_cpu_load] returns for snapshots that have an
    idle entry, when its report, if any, can be written. *)
Lemma compute_cpu_load_eval (start_load end_load : list Z) (verbose_mode : bool)
    (env : Env) (st : State) (start_idle end_idle : Z) :
  start_load !! 3%nat = Some start_idle ->
  end_load !! 3%nat = Some end_idle ->
  (verbose_mode = true ->
   report_printable (int_max_str_digits env) start_load end_load) ->
  (compute_cpu_load start_load end_load verbose_mode env st).2 =
    let diff_total := sum end_load - sum start_load in
    if diff_total =? 0 then Ok 0
    else Ok ((diff_total - (end_idle - start_idle)) * 100 / diff_total).
Proof.
  intros Hs He Hp. destruct verbose_mode.
  - rewrite (compute_cpu_load_verbose _ _ _ _ _ _ Hs He (Hp eq_refl)).
    reflexivity.
  - rewrite (compute_cpu_load_quiet _ _ _ _ _ _ Hs He). reflexivity.
Qed.

(** The computation stops at the indexing, or at the writing of a number
    of its report, in either case before it prints; or it prints its report
    in verbose mode and returns. *)
Lemma compute_cpu_load_cases (start_load end_load : list Z) (verbose_mode : bool)
    (env : Env) (st : State) :
  compute_cpu_load start_load end_load verbose_mode env st
  = (st, Raise IndexError) \/
  (verbose_mode = true /\
   ~ report_printable (int_max_str_digits env) start_load end_load /\
   compute_cpu_load start_load end_load verbose_mode env st
   = (st, Raise ValueError)) \/
  exists load,
    (verbose_mode = true ->
     report_printable (int_max_str_digits env) start_load end_load) /\
    compute_cpu_load start_load end_load verbose_mode env st
    = ({| spawned := spawned st; opened := opened st;
          log := log st ++ say_report verbose_mode start_load end_load |},
       Ok load).
Proof.
  destruct (start_load !! 3%nat) as [start_idle |] eqn:Hs;
    [| left; apply compute_cpu_load_short; auto].
  destruct (end_load !! 3%nat) as [end_idle |] eqn:He;
    [| left; apply compute_cpu_load_short; auto].
  right. destruct verbose_mode.
  - destruct (report_printable_dec (int_max_str_digits env) start_load end_load)
      as [Hp | Hp].
    + right. rewrite (compute_cpu_load_verbose _ _ _ _ _ _ Hs He Hp). cbv zeta.
      destruct (sum end_load - sum start_load =? 0); eexists;
        (split; [intros _; exact Hp | reflexivity]).
    + left. split; [reflexivity |]. split; [exact Hp |].
      exact (compute_cpu_load_unprintable _ _ _ _ _ _ Hs He Hp).
  - right. rewrite (compute_cpu_load_quiet _ _ _ _ _ _ Hs He). cbv zeta.
    destruct st as [ns no lg]. cbn [say_report spawned opened log].
    rewrite app_nil_r.
    destruct (sum end_load - sum start_load =? 0); eexists;
      (split; [discriminate | reflexivity]).
Qed.

(** The result does not depend on what happened before the call. *)
Lemma compute_cpu_load_result_indep (start_load end_load : list Z)
    (verbose_mode : bool) (env : Env) (st st' : State) :
  (compute_cpu_load start_load end_load verbose_mode env st).2
  = (compute_cpu_load start_load end_load verbose_mode env st').2.
Proof.
  destruct (start_load !! 3%nat) as [start_idle |] eqn:Hs;
    [| rewrite !compute_cpu_load_short by auto; reflexivity].
  destruct (end_load !! 3%nat) as [end_idle |] eqn:He;
    [| rewrite !compute_cpu_load_short by auto; reflexivity].
  destruct verbose_mode.
  - destruct (report_printable_dec (int_max_str_digits env) start_load end_load)
      as [Hp | Hp].
    + rewrite !(compute_cpu_load_verbose _ _ _ _ _ _ Hs He Hp). reflexivity.
    + rewrite !(compute_cpu_load_unprintable _ _ _ _ _ _ Hs He Hp). reflexivity.
  - rewrite !(compute_cpu_load_quiet _ _ _ _ _ _ Hs He). reflexivity.
Qed.

(** C1 as stated fails: both snapshots have an idle entry and the total
    moves, but with the verbose flag the total to print has 641 digits,
    more than the interpreter writes with a limit of 640, and the call
    raises [ValueError] instead of returning the floor, 100. *)
Lemma compute_cpu_load_report_overflow :
  [0; 0; 0; 0] !! 3%nat = Some 0 /\
  [10 ^ 640; 0; 0; 0] !! 3%nat = Some 0 /\
  (compute_cpu_load [0; 0; 0; 0] [10 ^ 640; 0; 0; 0] true
     (short_limit_env [] []) init_state).2 = Raise ValueError.
Proof.
  split; [reflexivity |]. split; [reflexivity |]. vm_compute. reflexivity.
Qed.

(** C1, amended: for snapshots that have an idle entry at index 3, and a
    report that can be written when the verbose flag is set, the load is 0
    when the total did not move, and otherwise the floor of
    [diffUsed * 100 / diffTotal], whatever the signs of [diffUsed] and
    [diffTotal]. *)
Theorem compute_cpu_load_floor (start_load end_load : list Z)
    (verbose_mode : bool) (env : Env) (st : State) (start_idle end_idle : Z) :
  start_load !! 3%nat = Some start_idle ->
  end_load !! 3%nat = Some end_idle ->
  (verbose_mode = true ->
   report_printable (int_max_str_digits env) start_load end_load) ->
  exists load,
    (compute_cpu_load start_load end_load verbose_mode env st).2 = Ok load /\
    let diffTotal := sum end_load - sum start_load in
    let diffUsed := diffTotal - (end_idle - start_idle) in
    (diffTotal = 0 -> load = 0) /\
    (diffTotal <> 0 -> is_floor_quotient (diffUsed * 100) diffTotal load).
Proof.
  intros Hs He Hp.
  rewrite (compute_cpu_load_eval _ _ _ _ _ _ _ Hs He Hp). cbv zeta.
  destruct (Z.eqb_spec (sum end_load - sum start_load) 0) as [Hz | Hz].
  - exists 0. split; [reflexivity |]. split; [reflexivity | contradiction].
  - eexists. split; [reflexivity |]. split; [contradiction |].
    intros _. apply Z_div_is_floor. exact Hz.
Qed.

(** A pair with a shrinking busy time, in verbose mode: the total grows by
    3 and the idle entry by 13, so the load is the floor of -1000 / 3. *)
Lemma compute_cpu_load_floor_witness :
  exists load,
    (compute_cpu_load [10; 0; 0; 0] [0; 0; 0; 13] true
       (scripted_env [] []) init_state).2 = Ok load /\
    (sum [0; 0; 0; 13] - sum [10; 0; 0; 0] = 0 -> load = 0) /\
    (sum [0; 0; 0; 13] - sum [10; 0; 0; 0] <> 0 ->
     is_floor_quotient
       ((sum [0; 0; 0; 13] - sum [10; 0; 0; 0] - (13 - 0)) * 100)
       (sum [0; 0; 0; 13] - sum [10; 0; 0; 0]) load).
Proof.
  apply (compute_cpu_load_floor [10; 0; 0; 0] [0; 0; 0; 13] true
           (scripted_env [] []) init_state 0 13); [reflexivity | reflexivity |].
  intros _. repeat (constructor; [right; vm_compute; lia |]). constructor.
Defined.

Example compute_cpu_load_rounds_down :
  (compute_cpu_load [10; 0; 0; 0] [0; 0; 0; 13] false
     (scripted_env [] []) init_state).2 = Ok (-334).
Proof. reflexivity. Qed.

Example compute_cpu_load_scenario_1 :
  (compute_cpu_load [10; 0; 0; 90; 0] [20; 0; 0; 100; 0] false
     (scripted_env [] []) init_state).2 = Ok 50.
Proof. reflexivity. Qed.

(** C7 as stated fails: on the same pair of snapshots the call returns
    100 without the verbose flag and raises [ValueError] with it, because
    the total to print has 641 digits and the limit is 640. *)
Lemma compute_cpu_load_verbose_changes_result :
  (compute_cpu_load [0; 0; 0; 0] [10 ^ 640; 0; 0; 0] false
     (short_limit_env [] []) init_state).2 = Ok 100 /\
  (compute_cpu_load [0; 0; 0; 0] [10 ^ 640; 0; 0; 0] true
     (short_limit_env [] []) init_state).2 = Raise ValueError.
Proof. split; vm_compute; reflexivity. Qed.

(** C7, amended: when the four quantities of the report can be written,
    the verbose flag changes what is printed and not what is returned; and
    whenever the verbose call returns a load, the quiet call returns the
    same load. *)
Theorem compute_cpu_load_verbose_irrelevant (start_load end_load : list Z)
    (env : Env) (st : State) :
  (report_printable (int_max_str_digits env) start_load end_load ->
   (compute_cpu_load start_load end_load true env st).2 =
   (compute_cpu_load start_load end_load false env st).2) /\
  (forall load,
     (compute_cpu_load start_load end_load true env st).2 = Ok load ->
     (compute_cpu_load start_load end_load false env st).2 = Ok load).
Proof.
  destruct (start_load !! 3%nat) as [start_idle |] eqn:Hs;
    [| rewrite !compute_cpu_load_short by auto; split; auto].
  destruct (end_load !! 3%nat) as [end_idle |] eqn:He;
    [| rewrite !compute_cpu_load_short by auto; split; auto].
  rewrite (compute_cpu_load_quiet _ _ _ _ _ _ Hs He).
  destruct (report_printable_dec (int_max_str_digits env) start_load end_load)
    as [Hp | Hp].
  - rewrite (compute_cpu_load_verbose _ _ _ _ _ _ Hs He Hp). split; auto.
  - rewrite (compute_cpu_load_unprintable _ _ _ _ _ _ Hs He Hp).
    split; [contradiction | discriminate].
Qed.

Lemma compute_cpu_load_verbose_irrelevant_witness :
  (compute_cpu_load [10; 0; 0; 90; 0] [20; 0; 0; 100; 0] true
     (scripted_env [] []) init_state).2 =
  (compute_cpu_load [10; 0; 0; 90; 0] [20; 0; 0; 100; 0] false
     (scripted_env [] []) init_state).2.
Proof.
  apply (compute_cpu_load_verbose_irrelevant
           [10; 0; 0; 90; 0] [20; 0; 0; 100; 0] (scripted_env [] []) init_state).
  repeat (constructor; [right; vm_compute; lia |]). constructor.
Defined.

(** C8 as stated fails: a snapshot with fewer than four entries makes the
    indexing raise [IndexError]. *)
Lemma compute_cpu_load_short_snapshot :
  (compute_cpu_load [1; 2; 3] [4; 5; 6; 7] false
     (scripted_env [] []) init_state).2 = Raise IndexError.
Proof. reflexivity. Qed.

(** C8, amended: on snapshots of at least four entries, with a report
    that can be written when the verbose flag is set, the computation raises
    nothing (no [IndexError], no [ZeroDivisionError], no [ValueError]) and
    returns an integer. *)
Theorem compute_cpu_load_total (start_load end_load : list Z)
    (verbose_mode : bool) (env : Env) (st : State) :
  (4 <= length start_load)%nat ->
  (4 <= length end_load)%nat ->
  (verbose_mode = true ->
   report_printable (int_max_str_digits env) start_load end_load) ->
  exists load,
    (compute_cpu_load start_load end_load verbose_mode env st).2 = Ok load.
Proof.
  intros Hs He Hp.
  destruct (lookup_lt_is_Some_2 start_load 3) as [start_idle Hsi]; [lia |].
  destruct (lookup_lt_is_Some_2 end_load 3) as [end_idle Hei]; [lia |].
  rewrite (compute_cpu_load_eval _ _ _ _ _ _ _ Hsi Hei Hp). cbv zeta.
  destruct (sum end_load - sum start_load =? 0); eauto.
Qed.

Lemma compute_cpu_load_total_witness :
  exists load,
    (compute_cpu_load [7; 7; 7; 7] [7; 7; 7; 7] true
       (scripted_env [] []) init_state).2 = Ok load.
Proof.
  apply (compute_cpu_load_total [7; 7; 7; 7] [7; 7; 7; 7] true
           (scripted_env [] []) init_state); [simpl; lia | simpl; lia |].
  intros _. repeat (constructor; [right; vm_compute; lia |]). constructor.
Defined.

(** C10: the load is a function of the two sums and the two entries at
    index 3 alone; so is everything the computation prints. *)
Theorem compute_cpu_load_depends_on_sums_and_idle
    (s1 e1 s2 e2 : list Z) (verbose_mode : bool) (env : Env) (st : State) :
  sum s1 = sum s2 ->
  sum e1 = sum e2 ->
  s1 !! 3%nat = s2 !! 3%nat ->
  e1 !! 3%nat = e2 !! 3%nat ->
  compute_cpu_load s1 e1 verbose_mode env st =
  compute_cpu_load s2 e2 verbose_mode env st.
Proof.
  intros Hss Hse Hs3 He3. unfold compute_cpu_load, getitem.
  rewrite Hss, Hse, Hs3, He3. reflexivity.
Qed.

Lemma compute_cpu_load_depends_on_sums_and_idle_witness :
  compute_cpu_load [1; 2; 3; 4] [5; 5; 5; 5] true (scripted_env [] []) init_state =
  compute_cpu_load [0; 0; 6; 4; 0] [15; 0; 0; 5] true (scripted_env [] []) init_state.
Proof.
  apply (compute_cpu_load_depends_on_sums_and_idle
           [1; 2; 3; 4] [5; 5; 5; 5] [0; 0; 6; 4; 0] [15; 0; 0; 5]);
    reflexivity.
Defined.

(** ** Characters and integer literals *)

Lemma digit_is_plain (c : ascii) :
  is_digit c = true ->
  is_space c = false /\ Ascii.eqb c "+" = false /\ Ascii.eqb c "-" = false /\
  Ascii.eqb c "_" = false.
Proof.
  destruct c as [[] [] [] [] [] [] [] []]; cbv; intros H;
    try discriminate H; repeat split.
Qed.

Lemma scan_digits_all_digits (s : string) (acc : Z) (n : nat) :
  all_digits s = true ->
  scan_digits false acc n s =
    Some (decimal_value_from acc s, (n + String.length s)%nat, "").
Proof.
  revert acc n. induction s as [| c s IH]; intros acc n Hd; simpl in *.
  - rewrite Nat.add_0_r. reflexivity.
  - apply andb_prop in Hd as [Hc Hs]. unfold is_digit in Hc.
    destruct (digit_value c) as [d |]; [| discriminate]. simpl.
    rewrite IH by exact Hs. do 3 f_equal. lia.
Qed.

(** A non-empty run of digits within the limit is read as the number it
    denotes. *)
Lemma py_int_digit_token (max_digits : nat) (s : string) :
  s <> "" -> digit_token max_digits s ->
  py_int max_digits s = Ok (decimal_value s).
Proof.
  intros Hne [Hd Hlen]. destruct s as [| c s]; [contradiction |].
  pose proof Hd as Hd'. simpl in Hd'. apply andb_prop in Hd' as [Hc _].
  destruct (digit_is_plain c Hc) as (Hsp & Hplus & Hminus & Hus).
  unfold py_int. cbn [lstrip]. rewrite Hsp, Hplus, Hminus, Hus.
  rewrite (scan_digits_all_digits _ 0 0 Hd).
  cbn [Nat.add String.length Nat.eqb lstrip].
  replace (negb (max_digits =? 0)%nat && (max_digits <? S (String.length s))%nat)
    with false; [reflexivity |].
  symmetry. destruct Hlen as [-> | Hle]; [reflexivity |].
  apply andb_false_iff. right. apply Nat.ltb_ge. exact Hle.
Qed.

Lemma py_int_raises_ValueError (max_digits : nat) (s : string) (e : exn) :
  py_int max_digits s = Raise e -> e = ValueError.
Proof.
  unfold py_int.
  repeat match goal with
         | |- context [match ?x with _ => _ end] => destruct x
         | |- context [if ?x then _ else _] => destruct x
         end; congruence.
Qed.

(** ** Mapping a fallible conversion over a list *)

Lemma list_map_all_ok {A B} (f : A -> outcome B) (g : A -> B) (l : list A) :
  Forall (fun x => f x = Ok (g x)) l -> list_map f l = Ok (map g l).
Proof.
  induction 1 as [| x l Hx _ IH]; simpl; [reflexivity |].
  rewrite Hx, IH. reflexivity.
Qed.

Lemma list_map_raise {A B} (f : A -> outcome B) (l : list A) (e : exn) :
  list_map f l = Raise e -> exists x, x ∈ l /\ f x = Raise e.
Proof.
  induction l as [| x l IH]; simpl; [discriminate |].
  destruct (f x) as [y | e'] eqn:Hx.
  - destruct (list_map f l) as [ys | e'']; [discriminate |].
    intros [= ->]. destruct IH as (x' & Hin & Hx'); [reflexivity |].
    exists x'. split; [right; exact Hin | exact Hx'].
  - intros [= ->]. exists x. split; [left | exact Hx].
Qed.

Lemma list_map_one_fails {A B} (f : A -> outcome B) (l : list A) (x : A) :
  x ∈ l -> is_ok (f x) = false -> is_ok (list_map f l) = false.
Proof.
  induction 1 as [x l | x y l _ IH]; simpl; intros Hx.
  - destruct (f x); [discriminate | reflexivity].
  - destruct (f y); [| reflexivity].
    specialize (IH Hx). destruct (list_map f l); [discriminate | reflexivity].
Qed.

(** ** Lines and the pattern *)

Lemma first_line_app (line rest : string) :
  no_newline line = true ->
  first_line (line +:+ String newline rest) = line.
Proof.
  induction line as [| c line IH]; simpl; intros H.
  - reflexivity.
  - apply andb_prop in H as [Hc Hl].
    destruct (Ascii.eqb c newline); [discriminate |].
    rewrite IH by exact Hl. reflexivity.
Qed.

Lemma first_line_no_newline (line : string) :
  no_newline line = true -> first_line line = line.
Proof.
  induction line as [| c line IH]; simpl; intros H; [reflexivity |].
  apply andb_prop in H as [Hc Hl].
  destruct (Ascii.eqb c newline); [discriminate |].
  rewrite IH by exact Hl. reflexivity.
Qed.

(** [.*] at the end of a pattern takes the rest of the line. *)
Lemma re_match_any_star (s : string) :
  re_match [AnyStar] s = Some (first_line s).
Proof.
  induction s as [| c s IH]; simpl; [reflexivity |].
  destruct (Ascii.eqb c newline); [reflexivity |].
  simpl in IH. rewrite IH. reflexivity.
Qed.

Lemma re_match_cpu (body : string) :
  re_match (re_compile "cpu .*") ("cpu " +:+ body)
  = Some ("cpu " +:+ first_line body).
Proof.
  change (re_compile "cpu .*")
    with [Lit "c"; Lit "p"; Lit "u"; Lit " "; AnyStar]%char.
  change ("cpu " +:+ body)
    with (String "c" (String "p" (String "u" (String " " body)))).
  cbn -[re_match]. 
  change (re_match [Lit "c"; Lit "p"; Lit "u"; Lit " "; AnyStar]%char
            (String "c" (String "p" (String "u" (String " " body)))))
    with (String "c" <$> (String "p" <$> (String "u" <$>
            (String " " <$> re_match [AnyStar] body)))).
  rewrite re_match_any_star. reflexivity.
Qed.

Lemma starts_with_cpu (text : string) :
  starts_with "cpu " text = true -> exists body, text = "cpu " +:+ body.
Proof.
  intros H.
  destruct text as [| c1 [| c2 [| c3 [| c4 body]]]]; cbn [starts_with] in H;
    repeat match type of H with
           | context [Ascii.eqb ?a ?b] =>
               destruct (Ascii.eqb_spec a b); subst; cbn [andb] in H
           end; try discriminate H.
  exists body. reflexivity.
Qed.

Lemma re_match_not_cpu (text : string) :
  starts_with "cpu " text = false ->
  re_match (re_compile "cpu .*") text = None.
Proof.
  intros H.
  change (re_compile "cpu .*")
    with [Lit "c"; Lit "p"; Lit "u"; Lit " "; AnyStar]%char.
  destruct text as [| c1 [| c2 [| c3 [| c4 body]]]];
    cbn [starts_with re_match] in *;
    repeat match goal with
           | |- context [Ascii.eqb ?a ?b] =>
               destruct (Ascii.eqb_spec a b); subst;
               cbn [andb fmap option_fmap option_map] in *
           end; try reflexivity; discriminate H.
Qed.

(** ** Reading a snapshot *)

Lemma str_split_nonempty (sep : ascii) (s : string) :
  exists w ws, str_split sep s = w :: ws.
Proof.
  destruct s as [| c s]; simpl; [eauto |].
  destruct (Ascii.eqb c sep); [eauto |].
  destruct (str_split sep s); eauto.
Qed.

Lemma str_split_cons_other (sep c : ascii) (s : string) :
  Ascii.eqb c sep = false ->
  exists w ws, str_split sep s = w :: ws /\
               str_split sep (String c s) = String c w :: ws.
Proof.
  intros Hc. destruct (str_split_nonempty sep s) as (w & ws & Hs).
  exists w, ws. split; [exact Hs |]. simpl. rewrite Hc, Hs. reflexivity.
Qed.

Lemma str_split_cpu (line : string) :
  str_split space ("cpu " +:+ line) = "cpu" :: str_split space line.
Proof. reflexivity. Qed.

Lemma parse_cpu_stats_cpu (max_digits : nat) (body : string) :
  parse_cpu_stats max_digits ("cpu " +:+ body)
  = list_map (py_int max_digits) (fields (first_line body)).
Proof.
  unfold parse_cpu_stats. rewrite re_match_cpu, str_split_cpu. reflexivity.
Qed.

Lemma parse_cpu_stats_not_cpu (max_digits : nat) (text : string) :
  starts_with "cpu " text = false ->
  parse_cpu_stats max_digits text = Raise AttributeError.
Proof.
  intros H. unfold parse_cpu_stats. rewrite re_match_not_cpu by exact H.
  reflexivity.
Qed.

Lemma get_cpu_load_eval (env : Env) (st : State) :
  get_cpu_load env st =
    ({| spawned := spawned st; opened := S (opened st);
        log := log st ++ [EvRead STAT_FILE_PATH
                            (file_text env (opened st) STAT_FILE_PATH)] |},
     snapshot_at env (opened st)).
Proof.
  unfold get_cpu_load, snapshot_at, parse_cpu_stats, read_text.
  unfold mbind, M_bind.
  destruct (file_text env (opened st) STAT_FILE_PATH) as [text |];
    [| reflexivity].
  destruct (re_match (re_compile "cpu .*") text); reflexivity.
Qed.

Lemma fields_nonempty (line tok : string) : tok ∈ fields line -> tok <> "".
Proof. unfold fields. rewrite list_elem_of_filter. tauto. Qed.

(** A text whose lines hold no aggregate line does not begin with the
    token [cpu] and a space. *)
Lemma aggregate_absent_not_at_start (text : string) :
  aggregate_line_absent text = true -> starts_with "cpu " text = false.
Proof.
  intros Habs. destruct (starts_with "cpu " text) eqn:Hp; [| reflexivity].
  destruct (starts_with_cpu text Hp) as [body ->].
  unfold aggregate_line_absent, lines in Habs.
  destruct (str_split_nonempty newline body) as (w & ws & Hb).
  change (str_split newline ("cpu " +:+ body))
    with (match
            match
              match
                match str_split newline body with
                | w :: ws => String " " w :: ws
                | [] => [String " " ""]
                end
              with
              | w :: ws => String "u" w :: ws
              | [] => [String "u" ""]
              end
            with
            | w :: ws => String "p" w :: ws
            | [] => [String "p" ""]
            end
          with
          | w :: ws => String "c" w :: ws
          | [] => [String "c" ""]
          end) in Habs.
  rewrite Hb in Habs. discriminate Habs.
Qed.

(** C2 as stated fails: an aggregate line that is not the first line of
    the text is not found; the call ends in [AttributeError]. *)
Lemma get_cpu_load_aggregate_not_first :
  In "cpu 1 2 3 4" (lines stat_aggregate_second) /\
  is_aggregate_line "cpu 1 2 3 4" = true /\
  list_map (py_int 4300) (fields "1 2 3 4") = Ok [1; 2; 3; 4] /\
  (get_cpu_load (scripted_env [] [stat_aggregate_second]) init_state).2
  = Raise AttributeError.
Proof.
  split; [right; left; reflexivity |].
  split; [reflexivity |]. split; reflexivity.
Qed.

(** C2, amended: when the text begins with the aggregate line ([cpu], a
    space, the line, a line feed), the snapshot is made of the fields of
    that line and of nothing after it: each non-empty piece between spaces
    is converted by [int()], and fields made of digits give the numbers they
    denote. *)
Theorem get_cpu_load_first_line (env : Env) (st : State) (line rest : string) :
  no_newline line = true ->
  file_text env (opened st) STAT_FILE_PATH
  = Some ("cpu " +:+ line +:+ String newline rest) ->
  (get_cpu_load env st).2
  = list_map (py_int (int_max_str_digits env)) (fields line) /\
  (Forall (digit_token (int_max_str_digits env)) (fields line) ->
   (get_cpu_load env st).2 = Ok (map decimal_value (fields line))).
Proof.
  intros Hline Htext.
  assert (Hres : (get_cpu_load env st).2
                 = list_map (py_int (int_max_str_digits env)) (fields line)).
  { rewrite get_cpu_load_eval. unfold snapshot_at. cbn [snd]. rewrite Htext.
    rewrite parse_cpu_stats_cpu, first_line_app by exact Hline.
    reflexivity. }
  split; [exact Hres |].
  intros Hdigits. rewrite Hres. apply list_map_all_ok.
  apply Forall_forall. intros tok Htok.
  apply py_int_digit_token.
  - exact (fields_nonempty _ _ Htok).
  - rewrite Forall_forall in Hdigits. exact (Hdigits tok Htok).
Qed.

Lemma get_cpu_load_first_line_witness :
  (get_cpu_load (scripted_env [] [stat_before]) init_state).2
  = list_map (py_int 4300) (fields " 10 0 0 90 0") /\
  (Forall (digit_token 4300) (fields " 10 0 0 90 0") ->
   (get_cpu_load (scripted_env [] [stat_before]) init_state).2
   = Ok (map decimal_value (fields " 10 0 0 90 0"))).
Proof.
  apply (get_cpu_load_first_line (scripted_env [] [stat_before]) init_state
           " 10 0 0 90 0" ("cpu0 10 0 0 90 0" +:+ linesep)); reflexivity.
Defined.

Example get_cpu_load_stat_before :
  (get_cpu_load (scripted_env [] [stat_before]) init_state).2
  = Ok [10; 0; 0; 90; 0].
Proof. reflexivity. Qed.

(** C3 as stated fails: a negative token is converted like any other
    integer literal, and the snapshot holds a negative counter. *)
Lemma get_cpu_load_accepts_negative :
  is_aggregate_line "cpu 1 -2 3 4" = true /\
  In "cpu 1 -2 3 4" (lines stat_negative) /\
  (get_cpu_load (scripted_env [] [stat_negative]) init_state).2
  = Ok [1; -2; 3; 4].
Proof. split; [reflexivity |]. split; [left |]; reflexivity. Qed.

(** C3, amended: when no line of the text is an aggregate line, or the text
    does not begin with [cpu] and a space, the call raises [AttributeError];
    when the first line has a field that [int()] refuses, it raises
    [ValueError].  In either case no snapshot is returned. *)
Theorem get_cpu_load_malformed (env : Env) (st : State) (text : string) :
  file_text env (opened st) STAT_FILE_PATH = Some text ->
  (aggregate_line_absent text = true \/ starts_with "cpu " text = false ->
   (get_cpu_load env st).2 = Raise AttributeError) /\
  (forall body tok,
     text = "cpu " +:+ body ->
     In tok (fields (first_line body)) ->
     is_ok (py_int (int_max_str_digits env) tok) = false ->
     (get_cpu_load env st).2 = Raise ValueError).
Proof.
  intros Htext. rewrite get_cpu_load_eval. unfold snapshot_at. cbn [snd].
  rewrite Htext. split.
  - intros [Habs | Hstart]; apply parse_cpu_stats_not_cpu;
      [apply aggregate_absent_not_at_start |]; assumption.
  - intros body tok -> Htok Hbad. rewrite parse_cpu_stats_cpu.
    apply list_elem_of_In in Htok.
    pose proof (list_map_one_fails _ _ _ Htok Hbad) as Hfail.
    destruct (list_map (py_int (int_max_str_digits env))
                (fields (first_line body))) as [l | e] eqn:Hmap;
      [discriminate Hfail |].
    destruct (list_map_raise _ _ _ Hmap) as (x & _ & Hx).
    rewrite (py_int_raises_ValueError _ _ _ Hx). reflexivity.
Qed.

Lemma get_cpu_load_malformed_witness :
  (get_cpu_load (scripted_env [] [stat_per_core_only]) init_state).2
  = Raise AttributeError /\
  (get_cpu_load (scripted_env [] [stat_bad_field]) init_state).2
  = Raise ValueError.
Proof.
  split.
  - apply (get_cpu_load_malformed (scripted_env [] [stat_per_core_only])
             init_state stat_per_core_only); [reflexivity |].
    left. reflexivity.
  - apply (get_cpu_load_malformed (scripted_env [] [stat_bad_field])
             init_state stat_bad_field eq_refl)
      with (body := "1 2 x 4" +:+ linesep) (tok := "x").
    + reflexivity.
    + right. right. left. reflexivity.
    + reflexivity.
Defined.

(** ** The checked subprocess wrapper *)

Lemma checked_args (kwargs : gmap string pyval) :
  checked kwargs !! "args" = kwargs !! "args".
Proof. unfold checked. apply lookup_insert_ne. discriminate. Qed.

Lemma checked_check (kwargs : gmap string pyval) :
  checked kwargs !! "check" = Some (VBool true).
Proof. unfold checked. apply lookup_insert_eq. Qed.

(** The wrapper calls [subprocess.run] once, on the keywords with
    [check] set, and turns what the call comes to into its own result. *)
Lemma run_check_subprocess_eval (kwargs : gmap string pyval) (env : Env) (st : State) :
  run_check_subprocess kwargs env st =
    (after_run env st (checked kwargs),
     run_result (spawn env (spawned st) (checked kwargs))).
Proof.
  unfold run_check_subprocess, subprocess_run. fold (checked kwargs).
  rewrite checked_check.
  unfold mbind, M_bind, os_spawn, after_run, run_result.
  destruct (spawn env (spawned st) (checked kwargs)) as [rc | | e].
  - cbn [truthy default andb from_option]. destruct (rc =? 0); reflexivity.
  - reflexivity.
  - destruct e; reflexivity.
Qed.

(** ** Symbolic execution of the script *)

Lemma flush_kwargs_args (cli_args : Namespace) :
  flush_kwargs cli_args !! "args"
  = Some (VStrList ["blockdev --flushbufs " +:+ device_filename cli_args]).
Proof. reflexivity. Qed.

Lemma dd_kwargs_args (cli_args : Namespace) :
  dd_kwargs cli_args !! "args"
  = Some (VStrList [ "dd"; "if=" +:+ device_filename cli_args; "of=/dev/null";
                     "bs=1048576";
                     "count=" +:+ decimal_of_Z (xfer cli_args) ]).
Proof. reflexivity. Qed.

Lemma measured_load_eval (env : Env) (cli_args : Namespace)
    (start_load end_load : list Z) (st : State) :
  snapshot_at env 0 = Ok start_load ->
  snapshot_at env 1 = Ok end_load ->
  measured_load env cli_args
  = (compute_cpu_load start_load end_load (verbose cli_args) env st).2.
Proof.
  intros Hs He. unfold measured_load. rewrite Hs, He.
  apply compute_cpu_load_result_indep.
Qed.

Lemma run_result_ok (r : proc_result) : run_result r = Ok tt -> r = Exited 0.
Proof.
  destruct r as [rc | | e]; simpl; [| discriminate ..].
  destruct (Z.eqb_spec rc 0) as [-> | _]; [reflexivity | discriminate].
Qed.

Lemma run_result_raise (r : proc_result) (e : exn) :
  run_result r = Raise e ->
  e = SystemExit 1 \/ e = OSError \/ exists c, e = exn_of_call_error c.
Proof.
  destruct r as [rc | | c]; simpl; [destruct (rc =? 0) | |]; intros [= <-];
    eauto.
Qed.

Lemma parsed_args_dec (env : Env) (cli_args : Namespace) :
  {parsed_args env cli_args} + {~ parsed_args env cli_args}.
Proof.
  unfold parsed_args.
  destruct (within_digit_limit_dec (int_max_str_digits env) (xfer cli_args));
    destruct (within_digit_limit_dec (int_max_str_digits env) (max_load cli_args));
    tauto.
Qed.

Ltac step :=
  rewrite bind_eval;
  first [ rewrite print_eval
        | rewrite mret_eval
        | rewrite sys_exit_eval
        | rewrite run_check_subprocess_eval
        | rewrite get_cpu_load_eval ];
  cbn [spawned opened log emit after_run init_state app].

Lemma run_script_shape_aux (env : Env) (cli_args : Namespace) :
  let '(st, r) := run_script env cli_args in
  run_shape env cli_args (log st) r.
Proof.
  unfold run_script, main.
  rewrite bind_eval, format_int_eval.
  destruct (within_digit_limit_dec (int_max_str_digits env) (xfer cli_args))
    as [Hx | Hx];
    [| rewrite (py_str_beyond _ _ Hx); apply run_banner_failed;
       intros [? _]; contradiction].
  rewrite (py_str_within _ _ Hx). cbv beta iota.
  rewrite bind_eval, format_int_eval.
  destruct (within_digit_limit_dec (int_max_str_digits env) (max_load cli_args))
    as [Hm | Hm];
    [| rewrite (py_str_beyond _ _ Hm); apply run_banner_failed;
       intros [_ ?]; contradiction].
  rewrite (py_str_within _ _ Hm). cbv beta iota.
  assert (Hparsed : parsed_args env cli_args) by (split; assumption).
  step. step.
  fold (flush_result env cli_args). fold (ev_banner cli_args).
  fold (ev_flush env cli_args).
  destruct (run_result (flush_result env cli_args)) as [[] | e] eqn:Hflush;
    [| apply run_flush_failed; assumption].
  apply run_result_ok in Hflush.
  step. fold (ev_read env 0).
  destruct (snapshot_at env 0) as [start_load | e] eqn:Hs0;
    [| apply run_first_snapshot_failed; assumption].
  pose proof (fun e => run_dd_failed env cli_args start_load e Hparsed Hflush Hs0)
    as Kdd.
  pose proof (fun e => run_second_snapshot_failed env cli_args start_load e
                         Hparsed Hflush Hs0) as Ksnap.
  pose proof (fun end_load e => run_compute_failed env cli_args start_load
                         end_load e Hparsed Hflush Hs0) as Kcomp.
  pose proof (fun end_load load => run_detected_failed env cli_args
                         start_load end_load load Hparsed Hflush Hs0) as Kdet.
  pose proof (fun end_load load => run_load_exceeds env cli_args
                         start_load end_load load Hparsed Hflush Hs0) as Kexc.
  pose proof (fun end_load load => run_load_accepted env cli_args
                         start_load end_load load Hparsed Hflush Hs0) as Kacc.
  pose proof (fun end_load st => measured_load_eval env cli_args start_load
                         end_load st Hs0) as Hmeasured.
  destruct (verbose cli_args) eqn:Hverbose; cbn [say say_report app] in *.
  all: step.
  all: rewrite bind_eval, format_int_eval, (py_str_within _ _ Hx); cbv beta iota.
  all: fold (dd_kwargs cli_args).
  all: step.
  all: fold (dd_result env cli_args); fold (ev_dd env cli_args).
  all: destruct (run_result (dd_result env cli_args)) as [[] | e] eqn:Hdd;
    [| apply Kdd; reflexivity].
  all: apply run_result_ok in Hdd.
  all: step; step; fold (ev_read env 1).
  all: destruct (snapshot_at env 1) as [end_load | e] eqn:Hs1;
    [| apply Ksnap; first [assumption | reflexivity]].
  all: rewrite bind_eval.
  all: match goal with
       | |- context [compute_cpu_load ?s ?e ?v ?env ?st] =>
           specialize (Hmeasured end_load st eq_refl);
           destruct (compute_cpu_load_cases s e v env st)
             as [Hc | [(_ & _ & Hc) | (load & _ & Hc)]];
           rewrite Hc in *; cbn [snd] in Hmeasured
       end.
  all: try (apply (Kcomp end_load); first [assumption | reflexivity]).
  all: cbv beta iota; cbn [say_report spawned opened log].
  all: rewrite bind_eval, format_int_eval.
  all: destruct (within_digit_limit_dec (int_max_str_digits env) load)
         as [Hl | Hl];
    [ rewrite (py_str_within _ _ Hl)
    | rewrite (py_str_beyond _ _ Hl); cbn [log];
      rewrite <- ?app_assoc; cbn [app];
      apply (Kdet end_load load); first [assumption | reflexivity] ].
  all: cbv beta iota.
  all: step; rewrite <- ?app_assoc; cbn [app].
  all: fold (ev_detected load).
  all: destruct (Z.gtb_spec load (max_load cli_args)) as [Hgt | Hle].
  all: try (step; step; fold ev_test_failed).
  all: try rewrite mret_eval.
  all: first [ apply (Kexc end_load load); first [assumption | reflexivity]
             | apply (Kacc end_load load); first [assumption | reflexivity] ].
Qed.

Lemma run_script_shape (env : Env) (cli_args : Namespace) :
  run_shape env cli_args
    (log (run_script env cli_args).1) (run_script env cli_args).2.
Proof.
  pose proof (run_script_shape_aux env cli_args) as H.
  destruct (run_script env cli_args) as [st r]. exact H.
Qed.
(** ** The outcome of a run in closed form *)

Lemma banner_outcome_parsed (env : Env) (cli_args : Namespace) :
  parsed_args env cli_args -> banner_outcome env cli_args = Ok tt.
Proof.
  intros [Hx Hm]. unfold banner_outcome.
  rewrite (py_str_within _ _ Hx), (py_str_within _ _ Hm). reflexivity.
Qed.

Lemma banner_outcome_unparsed (env : Env) (cli_args : Namespace) :
  ~ parsed_args env cli_args -> banner_outcome env cli_args = Raise ValueError.
Proof.
  intros Hno. unfold banner_outcome.
  destruct (within_digit_limit_dec (int_max_str_digits env) (xfer cli_args))
    as [Hx | Hx]; [| rewrite (py_str_beyond _ _ Hx); reflexivity].
  destruct (within_digit_limit_dec (int_max_str_digits env) (max_load cli_args))
    as [Hm | Hm]; [exfalso; apply Hno; split; assumption |].
  rewrite (py_str_within _ _ Hx), (py_str_beyond _ _ Hm). reflexivity.
Qed.

Lemma run_shape_outcome (env : Env) (cli_args : Namespace)
    (l : list event) (r : outcome unit) :
  run_shape env cli_args l r -> r = expected_outcome env cli_args.
Proof.
  intros H. unfold expected_outcome.
  destruct H as
    [ Hno | e Hp He | e Hp Hf He | s e Hp Hf Hs He | s e Hp Hf Hs Hd He
    | s s' e Hp Hf Hs Hd Hs' He
    | s s' load Hp Hf Hs Hd Hs' Hm Hl
    | s s' load Hp Hf Hs Hd Hs' Hm Hl Hgt
    | s s' load Hp Hf Hs Hd Hs' Hm Hl Hle ];
    [ rewrite (banner_outcome_unparsed _ _ Hno); reflexivity
    | rewrite (banner_outcome_parsed _ _ Hp) .. ];
    try rewrite Hf; try rewrite Hs; try rewrite Hd; cbn [run_result Z.eqb];
    try rewrite He; try reflexivity.
  - unfold measured_load. rewrite Hs, He. reflexivity.
  - rewrite Hm, (py_str_beyond _ _ Hl). reflexivity.
  - rewrite Hm, (py_str_within _ _ Hl). apply Z.gtb_lt in Hgt. rewrite Hgt.
    reflexivity.
  - rewrite Hm, (py_str_within _ _ Hl).
    destruct (Z.gtb_spec load (max_load cli_args)); [lia | reflexivity].
Qed.

Lemma run_script_outcome (env : Env) (cli_args : Namespace) :
  (run_script env cli_args).2 = expected_outcome env cli_args.
Proof. exact (run_shape_outcome _ _ _ _ (run_script_shape env cli_args)). Qed.

Lemma steps_of_print (text : string) (l : list event) :
  steps_of (EvPrint text :: l) = steps_of l.
Proof. unfold steps_of. apply filter_cons_False. intros H. discriminate H. Qed.

Lemma steps_of_say (b : bool) (text : string) (l : list event) :
  steps_of (say b text ++ l) = steps_of l.
Proof. destruct b; [apply steps_of_print | reflexivity]. Qed.

Lemma steps_of_say_report (b : bool) (start_load end_load : list Z)
    (l : list event) :
  steps_of (say_report b start_load end_load ++ l) = steps_of l.
Proof. destruct b; [apply steps_of_print | reflexivity]. Qed.

Lemma steps_of_say_report_end (b : bool) (start_load end_load : list Z) :
  steps_of (say_report b start_load end_load) = [].
Proof. destruct b; reflexivity. Qed.

Lemma steps_of_step (ev : event) (l : list event) :
  is_print ev = false -> steps_of (ev :: l) = ev :: steps_of l.
Proof. intros H. unfold steps_of. apply filter_cons_True. exact H. Qed.

Lemma run_shape_steps (env : Env) (cli_args : Namespace)
    (l : list event) (r : outcome unit) :
  run_shape env cli_args l r -> steps_of l = expected_steps env cli_args.
Proof.
  intros H. unfold expected_steps.
  destruct H as
    [ Hno | e Hp He | e Hp Hf He | s e Hp Hf Hs He | s e Hp Hf Hs Hd He
    | s s' e Hp Hf Hs Hd Hs' He
    | s s' load Hp Hf Hs Hd Hs' Hm Hl
    | s s' load Hp Hf Hs Hd Hs' Hm Hl Hgt
    | s s' load Hp Hf Hs Hd Hs' Hm Hl Hle ];
    [ rewrite (banner_outcome_unparsed _ _ Hno); reflexivity
    | rewrite (banner_outcome_parsed _ _ Hp) .. ];
    try rewrite Hf; try rewrite Hs; try rewrite Hd; cbn [run_result Z.eqb];
    try rewrite He; cbn [app];
    repeat match goal with
           | |- context [steps_of (say ?b ?t ++ ?l)] =>
               rewrite (steps_of_say b t l)
           | |- context [steps_of (say_report ?b ?x ?y ++ ?l)] =>
               rewrite (steps_of_say_report b x y l)
           | |- context [steps_of (say_report ?b ?x ?y)] =>
               rewrite (steps_of_say_report_end b x y)
           | |- context [steps_of (ev_banner ?c :: ?l)] =>
               rewrite (steps_of_print _ l : steps_of (ev_banner c :: l) = _)
           | |- context [steps_of (ev_detected ?x :: ?l)] =>
               rewrite (steps_of_print _ l : steps_of (ev_detected x :: l) = _)
           | |- context [steps_of (ev_test_failed :: ?l)] =>
               rewrite (steps_of_print _ l : steps_of (ev_test_failed :: l) = _)
           | |- context [steps_of (?ev :: ?l)] =>
               rewrite (steps_of_step ev l eq_refl)
           end;
    reflexivity.
Qed.

Lemma external_ops_cons (cli_args : Namespace) (ev : event) (l : list event) :
  external_ops cli_args (ev :: l) =
    match op_of_event cli_args ev with
    | Some o => o :: external_ops cli_args l
    | None => external_ops cli_args l
    end.
Proof. reflexivity. Qed.

Lemma op_of_ev_flush (env : Env) (cli_args : Namespace) :
  op_of_event cli_args (ev_flush env cli_args) = Some OpFlush.
Proof.
  unfold op_of_event, ev_flush. rewrite checked_args.
  destruct (decide _) as [_ | Hne]; [reflexivity | contradiction].
Qed.

Lemma op_of_ev_dd (env : Env) (cli_args : Namespace) :
  op_of_event cli_args (ev_dd env cli_args) = Some OpBulkRead.
Proof.
  unfold op_of_event, ev_dd.
  rewrite checked_args, dd_kwargs_args, flush_kwargs_args.
  destruct (decide _) as [Heq | _]; [discriminate Heq |].
  destruct (decide _) as [_ | Hne]; [reflexivity | contradiction].
Qed.

Lemma op_of_ev_read (env : Env) (cli_args : Namespace) (n : nat) :
  op_of_event cli_args (ev_read env n) = Some OpSnapshot.
Proof. reflexivity. Qed.

Lemma external_ops_steps_of (cli_args : Namespace) (l : list event) :
  external_ops cli_args l = external_ops cli_args (steps_of l).
Proof.
  induction l as [| ev l IH]; [reflexivity |].
  destruct ev as [text | kwargs res | path res].
  - rewrite steps_of_print. rewrite external_ops_cons. exact IH.
  - rewrite steps_of_step by reflexivity. rewrite !external_ops_cons, IH.
    reflexivity.
  - rewrite steps_of_step by reflexivity. rewrite !external_ops_cons, IH.
    reflexivity.
Qed.

Lemma run_script_external_ops (env : Env) (cli_args : Namespace) :
  external_ops cli_args (log (run_script env cli_args).1)
  = external_ops cli_args (expected_steps env cli_args).
Proof.
  rewrite external_ops_steps_of.
  rewrite (run_shape_steps _ _ _ _ (run_script_shape env cli_args)).
  reflexivity.
Qed.

(** ** Exit status *)

Lemma snapshot_at_raise (env : Env) (n : nat) (e : exn) :
  snapshot_at env n = Raise e ->
  e = OSError \/ e = AttributeError \/ e = ValueError.
Proof.
  unfold snapshot_at, parse_cpu_stats.
  destruct (file_text env n STAT_FILE_PATH) as [text |];
    [| intros [= <-]; auto].
  destruct (re_match (re_compile "cpu .*") text) as [g |];
    [| intros [= <-]; auto].
  intros Hmap. destruct (list_map_raise _ _ _ Hmap) as (x & _ & Hx).
  rewrite (py_int_raises_ValueError _ _ _ Hx). auto.
Qed.

Lemma compute_cpu_load_raise (start_load end_load : list Z) (verbose_mode : bool)
    (env : Env) (st : State) (e : exn) :
  (compute_cpu_load start_load end_load verbose_mode env st).2 = Raise e ->
  e = IndexError \/ e = ValueError.
Proof.
  destruct (compute_cpu_load_cases start_load end_load verbose_mode env st)
    as [-> | [(_ & _ & ->) | (load & _ & ->)]]; cbn; intros [= <-]; auto.
Qed.

Lemma measured_load_raise (env : Env) (cli_args : Namespace) (e : exn) :
  measured_load env cli_args = Raise e ->
  e = OSError \/ e = AttributeError \/ e = ValueError \/ e = IndexError.
Proof.
  unfold measured_load.
  destruct (snapshot_at env 0) as [s |] eqn:Hs0.
  - destruct (snapshot_at env 1) as [s' |] eqn:Hs1.
    + intros H. apply compute_cpu_load_raise in H. destruct H; auto.
    + intros [= <-]. destruct (snapshot_at_raise _ _ _ Hs1) as [| []]; auto.
  - intros [= <-]. destruct (snapshot_at_raise _ _ _ Hs0) as [| []]; auto.
Qed.

Lemma exit_status_run_result (r : proc_result) (e : exn) :
  run_result r = Raise e -> exit_status (Raise e : outcome unit) = 1.
Proof.
  intros H. destruct (run_result_raise _ _ H) as [-> | [-> | [c ->]]];
    [reflexivity | reflexivity | destruct c; reflexivity].
Qed.

Lemma exit_status_snapshot_at (env : Env) (n : nat) (e : exn) :
  snapshot_at env n = Raise e -> exit_status (Raise e : outcome unit) = 1.
Proof.
  intros H. destruct (snapshot_at_raise _ _ _ H) as [-> | [-> | ->]];
    reflexivity.
Qed.

Lemma exit_status_measured_load (env : Env) (cli_args : Namespace) (e : exn) :
  measured_load env cli_args = Raise e ->
  exit_status (Raise e : outcome unit) = 1.
Proof.
  intros H. destruct (measured_load_raise _ _ _ H) as [-> | [-> | [-> | ->]]];
    reflexivity.
Qed.

(** A run that ends in an exception ends with status 1. *)
Lemma run_shape_exit_status (env : Env) (cli_args : Namespace)
    (l : list event) (r : outcome unit) :
  run_shape env cli_args l r ->
  (r = Ok tt /\ exit_status r = 0) \/
  (exists e, r = Raise e /\ exit_status r = 1).
Proof.
  intros H. destruct H as
    [ Hno | e Hp He | e Hp Hf He | s e Hp Hf Hs He | s e Hp Hf Hs Hd He
    | s s' e Hp Hf Hs Hd Hs' He
    | s s' load Hp Hf Hs Hd Hs' Hm Hl
    | s s' load Hp Hf Hs Hd Hs' Hm Hl Hgt
    | s s' load Hp Hf Hs Hd Hs' Hm Hl Hle ];
    try (left; split; reflexivity);
    right; eexists; (split; [reflexivity |]);
    first [ reflexivity
          | exact (exit_status_run_result _ _ He)
          | exact (exit_status_snapshot_at _ _ _ He)
          | exact (exit_status_measured_load _ _ _ He) ].
Qed.

Lemma run_result_failed (r : proc_result) :
  r <> Exited 0 -> exists e, run_result r = Raise e.
Proof.
  destruct r as [rc | | c]; simpl; [| eauto ..].
  destruct (Z.eqb_spec rc 0) as [-> | _]; [congruence | eauto].
Qed.

Lemma run_result_exited_0 : run_result (Exited 0) = Ok tt.
Proof. reflexivity. Qed.

Lemma measured_load_snapshots (env : Env) (cli_args : Namespace) (load : Z) :
  measured_load env cli_args = Ok load ->
  exists start_load end_load,
    snapshot_at env 0 = Ok start_load /\ snapshot_at env 1 = Ok end_load.
Proof.
  unfold measured_load.
  destruct (snapshot_at env 0) as [s |]; [| discriminate].
  destruct (snapshot_at env 1) as [s' |]; [| discriminate]. eauto.
Qed.

(** C4 fails on the code: the flush ends with status 2, and the script
    ends with status 1.  The handler reads the status from [res_run], which
    is only bound when the call returns. *)
Lemma flush_status_not_mirrored :
  flush_result (scripted_env [2] []) default_args = Exited 2 /\
  (run_script (scripted_env [2] []) default_args).2 = Raise (SystemExit 1) /\
  exit_status (run_script (scripted_env [2] []) default_args).2 = 1.
Proof. repeat split. Qed.

(** C5 as stated fails: both external operations succeed and the load,
    [- 10 ^ 641], is below max-load, but the exit status is 1: the load
    has more digits than the interpreter writes, and the [print] of the
    detected load raises [ValueError]. *)
Lemma exit_status_unprintable_load :
  flush_result (short_limit_env [] [stat_huge_before; stat_huge_after])
    default_args = Exited 0 /\
  dd_result (short_limit_env [] [stat_huge_before; stat_huge_after])
    default_args = Exited 0 /\
  measured_load (short_limit_env [] [stat_huge_before; stat_huge_after])
    default_args = Ok (- 10 ^ 641) /\
  - 10 ^ 641 <= max_load default_args /\
  (run_script (short_limit_env [] [stat_huge_before; stat_huge_after])
     default_args).2 = Raise ValueError /\
  exit_status
    (run_script (short_limit_env [] [stat_huge_before; stat_huge_after])
       default_args).2 = 1.
Proof.
  split; [reflexivity |]. split; [reflexivity |].
  split; [vm_compute; reflexivity |].
  split; [vm_compute; discriminate |].
  assert (H : (run_script
                 (short_limit_env [] [stat_huge_before; stat_huge_after])
                 default_args).2 = Raise ValueError)
    by (vm_compute; reflexivity).
  rewrite H. split; reflexivity.
Qed.

(** C5, amended: for arguments as [parse_cli] returns them, when both
    external operations succeed, the exit status is 0 exactly when a load is
    computed, it can be written and it is at most max-load; it is 1 when the
    load is above max-load, and 1 when the load cannot be written.  When an
    external operation does not succeed, the exit status is 1. *)
Theorem exit_status_threshold (env : Env) (cli_args : Namespace) :
  parsed_args env cli_args ->
  (flush_result env cli_args = Exited 0 ->
   dd_result env cli_args = Exited 0 ->
   (exit_status (run_script env cli_args).2 = 0 <->
    exists load,
      measured_load env cli_args = Ok load /\
      within_digit_limit (int_max_str_digits env) load /\
      load <= max_load cli_args) /\
   (forall load,
      measured_load env cli_args = Ok load ->
      max_load cli_args < load ->
      exit_status (run_script env cli_args).2 = 1) /\
   (forall load,
      measured_load env cli_args = Ok load ->
      ~ within_digit_limit (int_max_str_digits env) load ->
      exit_status (run_script env cli_args).2 = 1)) /\
  (flush_result env cli_args <> Exited 0 \/
   dd_result env cli_args <> Exited 0 ->
   exit_status (run_script env cli_args).2 = 1).
Proof.
  intros Hparsed.
  pose proof (run_script_shape env cli_args) as Hshape.
  pose proof (run_shape_exit_status _ _ _ _ Hshape) as Hexit.
  remember (log (run_script env cli_args).1) as l eqn:Hl.
  remember (run_script env cli_args).2 as r eqn:Hr.
  clear Hl Hr. split.
  - intros Hflush Hdd. split; [split | split].
    + intros H0.
      destruct Hexit as [[-> _] | (e & -> & H1)]; [| congruence].
      inversion Hshape; subst. eauto.
    + intros (load & Hload & Hlim & Hle).
      destruct Hexit as [[_ H0] | (e & -> & _)]; [exact H0 |].
      destruct (measured_load_snapshots _ _ _ Hload) as (s0 & s1 & Hs0 & Hs1).
      exfalso. inversion Hshape; subst;
        repeat match goal with
               | H : run_result ?x = Raise _, H' : ?x = Exited 0 |- _ =>
                   rewrite H' in H; discriminate H
               | H : measured_load env cli_args = Ok ?l |- _ =>
                   assert (l = load) by congruence; subst l; clear H
               end; first [congruence | contradiction | lia].
    + intros load Hload Hgt.
      destruct Hexit as [[-> _] | (e & -> & H1)]; [| exact H1].
      exfalso. inversion Hshape; subst.
      assert (load0 = load) by congruence. lia.
    + intros load Hload Hlim.
      destruct Hexit as [[-> _] | (e & -> & H1)]; [| exact H1].
      exfalso. inversion Hshape; subst.
      assert (load0 = load) by congruence. subst. contradiction.
  - intros Hfail.
    destruct Hexit as [[-> _] | (e & -> & H1)]; [| exact H1].
    exfalso. inversion Hshape; subst. destruct Hfail; contradiction.
Qed.

Lemma exit_status_threshold_witness :
  exit_status
    (run_script (scripted_env [] [stat_before; stat_light]) default_args).2 = 0
  <-> exists load,
        measured_load (scripted_env [] [stat_before; stat_light]) default_args
        = Ok load /\
        within_digit_limit
          (int_max_str_digits (scripted_env [] [stat_before; stat_light])) load /\
        load <= max_load default_args.
Proof.
  apply (exit_status_threshold
           (scripted_env [] [stat_before; stat_light]) default_args);
    [split; right; vm_compute; lia | reflexivity | reflexivity].
Defined.

Example run_within_threshold :
  measured_load (scripted_env [] [stat_before; stat_light]) default_args = Ok 15 /\
  exit_status
    (run_script (scripted_env [] [stat_before; stat_light]) default_args).2 = 0.
Proof. split; reflexivity. Qed.

Example run_at_threshold :
  measured_load (scripted_env [] [stat_before; stat_after])
    {| max_load := 50; xfer := 1; verbose := true; device_filename := "sdb" |}
  = Ok 50 /\
  exit_status
    (run_script (scripted_env [] [stat_before; stat_after])
       {| max_load := 50; xfer := 1; verbose := true;
          device_filename := "sdb" |}).2 = 0.
Proof. split; reflexivity. Qed.

Example run_above_threshold :
  measured_load (scripted_env [] [stat_before; stat_after]) default_args = Ok 50 /\
  exit_status
    (run_script (scripted_env [] [stat_before; stat_after]) default_args).2 = 1.
Proof. split; reflexivity. Qed.
(** ** Order of the steps *)

Lemma expected_steps_parsed (env : Env) (cli_args : Namespace) :
  parsed_args env cli_args ->
  expected_steps env cli_args =
    ev_flush env cli_args ::
    match run_result (flush_result env cli_args) with
    | Raise _ => []
    | Ok _ =>
        ev_read env 0 ::
        match snapshot_at env 0 with
        | Raise _ => []
        | Ok _ =>
            ev_dd env cli_args ::
            match run_result (dd_result env cli_args) with
            | Raise _ => []
            | Ok _ => [ev_read env 1]
            end
        end
    end.
Proof.
  intros Hp. unfold expected_steps. rewrite (banner_outcome_parsed _ _ Hp).
  reflexivity.
Qed.

(** ** Nothing follows a failed step *)

Lemma failures_last_split (max_digits : nat) (l : list event) :
  failures_last max_digits l ->
  forall before ev after,
    l = before ++ ev :: after ->
    event_failed max_digits ev = true -> after = [].
Proof.
  induction l as [| x l IH]; intros Hl before ev after Heq Hfail.
  - destruct before; discriminate Heq.
  - destruct Hl as [Hx Hrest]. destruct before as [| y before].
    + injection Heq as -> ->. exact (Hx Hfail).
    + injection Heq as -> ->. exact (IH Hrest before ev after eq_refl Hfail).
Qed.

Lemma failures_last_print (max_digits : nat) (text : string) (l : list event) :
  failures_last max_digits l -> failures_last max_digits (EvPrint text :: l).
Proof. intros H. split; [discriminate | exact H]. Qed.

Lemma failures_last_say (max_digits : nat) (b : bool) (text : string)
    (l : list event) :
  failures_last max_digits l -> failures_last max_digits (say b text ++ l).
Proof. destruct b; [apply failures_last_print | auto]. Qed.

Lemma failures_last_say_report (max_digits : nat) (b : bool)
    (start_load end_load : list Z) (l : list event) :
  failures_last max_digits l ->
  failures_last max_digits (say_report b start_load end_load ++ l).
Proof. destruct b; [apply failures_last_print | auto]. Qed.

Lemma failures_last_say_report_end (max_digits : nat) (b : bool)
    (start_load end_load : list Z) :
  failures_last max_digits (say_report b start_load end_load).
Proof. destruct b; [apply failures_last_print |]; exact I. Qed.

Lemma failures_last_ok (max_digits : nat) (ev : event) (l : list event) :
  event_failed max_digits ev = false ->
  failures_last max_digits l -> failures_last max_digits (ev :: l).
Proof. intros Hev H. split; [congruence | exact H]. Qed.

Lemma failures_last_end (max_digits : nat) (ev : event) :
  failures_last max_digits [ev].
Proof. split; [reflexivity | exact I]. Qed.

Lemma ev_flush_ok (max_digits : nat) (env : Env) (cli_args : Namespace) :
  flush_result env cli_args = Exited 0 ->
  event_failed max_digits (ev_flush env cli_args) = false.
Proof. unfold ev_flush. intros ->. reflexivity. Qed.

Lemma ev_dd_ok (max_digits : nat) (env : Env) (cli_args : Namespace) :
  dd_result env cli_args = Exited 0 ->
  event_failed max_digits (ev_dd env cli_args) = false.
Proof. unfold ev_dd. intros ->. reflexivity. Qed.

Lemma ev_read_ok (env : Env) (n : nat) (snapshot : list Z) :
  snapshot_at env n = Ok snapshot ->
  event_failed (int_max_str_digits env) (ev_read env n) = false.
Proof.
  unfold snapshot_at, ev_read, event_failed.
  destruct (file_text env n STAT_FILE_PATH); [| discriminate].
  intros ->. reflexivity.
Qed.

Lemma failures_last_run_shape (env : Env) (cli_args : Namespace)
    (l : list event) (r : outcome unit) :
  run_shape env cli_args l r -> failures_last (int_max_str_digits env) l.
Proof.
  intros H. destruct H; cbn [app];
    repeat match goal with
           | |- failures_last _ [] => exact I
           | |- failures_last _ [_] => apply failures_last_end
           | |- failures_last _ (say _ _ ++ _) => apply failures_last_say
           | |- failures_last _ (say_report _ _ _ ++ _) =>
               apply failures_last_say_report
           | |- failures_last _ (say_report _ _ _) =>
               apply failures_last_say_report_end
           | |- failures_last _ (ev_flush _ _ :: _) =>
               apply failures_last_ok; [apply ev_flush_ok; assumption |]
           | |- failures_last _ (ev_dd _ _ :: _) =>
               apply failures_last_ok; [apply ev_dd_ok; assumption |]
           | |- failures_last _ (ev_read _ _ :: _) =>
               apply failures_last_ok; [eapply ev_read_ok; eassumption |]
           | |- failures_last _ (_ :: _) =>
               apply failures_last_ok; [reflexivity |]
           end.
Qed.

(** C6: for arguments as [parse_cli] returns them, the external steps of
    a run are exactly these.  When the flush does not succeed: the flush
    alone, and a non-zero exit status; no snapshot, no bulk read.  When the
    flush succeeds and the first snapshot fails: flush, snapshot.  When the
    first snapshot is taken and the bulk read does not succeed: flush,
    snapshot, bulk read.  When the bulk read succeeds: flush, snapshot, bulk
    read, snapshot.  A step that fails gives a non-zero exit status, and
    nothing at all follows a failed step in the log. *)
Theorem steps_in_order_fail_fast (env : Env) (cli_args : Namespace) :
  parsed_args env cli_args ->
  (flush_result env cli_args <> Exited 0 ->
   exit_status (run_script env cli_args).2 <> 0 /\
   external_ops cli_args (log (run_script env cli_args).1) = [OpFlush]) /\
  (flush_result env cli_args = Exited 0 ->
   (forall e,
      snapshot_at env 0 = Raise e ->
      exit_status (run_script env cli_args).2 <> 0 /\
      external_ops cli_args (log (run_script env cli_args).1)
      = [OpFlush; OpSnapshot]) /\
   (forall start_load,
      snapshot_at env 0 = Ok start_load ->
      (dd_result env cli_args <> Exited 0 ->
       exit_status (run_script env cli_args).2 <> 0 /\
       external_ops cli_args (log (run_script env cli_args).1)
       = [OpFlush; OpSnapshot; OpBulkRead]) /\
      (dd_result env cli_args = Exited 0 ->
       external_ops cli_args (log (run_script env cli_args).1)
       = [OpFlush; OpSnapshot; OpBulkRead; OpSnapshot] /\
       (forall e,
          snapshot_at env 1 = Raise e ->
          exit_status (run_script env cli_args).2 <> 0)))) /\
  (forall before ev after,
     log (run_script env cli_args).1 = before ++ ev :: after ->
     event_failed (int_max_str_digits env) ev = true ->
     after = []).
Proof.
  intros Hparsed.
  rewrite run_script_external_ops, run_script_outcome.
  rewrite (expected_steps_parsed _ _ Hparsed).
  unfold expected_outcome. rewrite (banner_outcome_parsed _ _ Hparsed).
  split; [| split].
  - intros Hfail. destruct (run_result_failed _ Hfail) as [e He].
    rewrite He. split.
    + rewrite (exit_status_run_result _ _ He). discriminate.
    + rewrite !external_ops_cons, op_of_ev_flush. reflexivity.
  - intros Hf. rewrite Hf, run_result_exited_0. split.
    + intros e Hs. rewrite Hs. split.
      * rewrite (exit_status_snapshot_at _ _ _ Hs). discriminate.
      * rewrite !external_ops_cons, op_of_ev_flush, op_of_ev_read.
        reflexivity.
    + intros start_load Hs. rewrite Hs. split.
      * intros Hfail. destruct (run_result_failed _ Hfail) as [e He].
        rewrite He. split.
        -- rewrite (exit_status_run_result _ _ He). discriminate.
        -- rewrite !external_ops_cons, op_of_ev_flush, op_of_ev_read,
             op_of_ev_dd. reflexivity.
      * intros Hd. rewrite Hd, run_result_exited_0. split.
        -- rewrite !external_ops_cons, op_of_ev_flush, !op_of_ev_read,
             op_of_ev_dd. reflexivity.
        -- intros e Hs'.
           assert (Hm : measured_load env cli_args = Raise e)
             by (unfold measured_load; rewrite Hs, Hs'; reflexivity).
           rewrite Hm, (exit_status_measured_load _ _ _ Hm). discriminate.
  - apply failures_last_split.
    exact (failures_last_run_shape _ _ _ _ (run_script_shape env cli_args)).
Qed.

Lemma steps_in_order_fail_fast_witness :
  exit_status (run_script (scripted_env [2] []) default_args).2 <> 0 /\
  external_ops default_args
    (log (run_script (scripted_env [2] []) default_args).1) = [OpFlush].
Proof.
  apply (steps_in_order_fail_fast (scripted_env [2] []) default_args);
    [split; right; vm_compute; lia | discriminate].
Defined.

Example steps_when_bulk_read_fails :
  external_ops default_args
    (log (run_script (scripted_env [0; 1] [stat_before]) default_args).1)
  = [OpFlush; OpSnapshot; OpBulkRead].
Proof. vm_compute. reflexivity. Qed.

Example steps_of_a_full_run :
  external_ops default_args
    (log (run_script (scripted_env [] [stat_before; stat_light]) default_args).1)
  = [OpFlush; OpSnapshot; OpBulkRead; OpSnapshot].
Proof. vm_compute. reflexivity. Qed.

(** ** Every call is checked *)

Lemma checked_insert_check (v : pyval) (kwargs : gmap string pyval) :
  checked (<["check" := v]> kwargs) = checked kwargs.
Proof. unfold checked. apply insert_insert_eq. Qed.

Lemma runs_checked_print (text : string) (l : list event) :
  runs_checked l -> runs_checked (EvPrint text :: l).
Proof. intros H. split; [exact I | exact H]. Qed.

Lemma runs_checked_say (b : bool) (text : string) (l : list event) :
  runs_checked l -> runs_checked (say b text ++ l).
Proof. destruct b; [apply runs_checked_print | auto]. Qed.

Lemma runs_checked_say_report (b : bool) (start_load end_load : list Z)
    (l : list event) :
  runs_checked l -> runs_checked (say_report b start_load end_load ++ l).
Proof. destruct b; [apply runs_checked_print | auto]. Qed.

Lemma runs_checked_say_report_end (b : bool) (start_load end_load : list Z) :
  runs_checked (say_report b start_load end_load).
Proof. destruct b; [apply runs_checked_print |]; exact I. Qed.

Lemma runs_checked_read (path : string) (res : option string) (l : list event) :
  runs_checked l -> runs_checked (EvRead path res :: l).
Proof. intros H. split; [exact I | exact H]. Qed.

Lemma runs_checked_run_ok (kwargs : gmap string pyval) (l : list event) :
  runs_checked l -> runs_checked (EvRun (checked kwargs) (Exited 0) :: l).
Proof.
  intros H. split; [| exact H].
  split; [apply checked_check | congruence].
Qed.

Lemma runs_checked_run_end (kwargs : gmap string pyval) (res : proc_result) :
  runs_checked [EvRun (checked kwargs) res].
Proof. split; [| exact I]. split; [apply checked_check | reflexivity]. Qed.

Lemma runs_checked_run_shape (env : Env) (cli_args : Namespace)
    (l : list event) (r : outcome unit) :
  run_shape env cli_args l r -> runs_checked l.
Proof.
  intros H. destruct H; cbn [app];
    unfold ev_flush, ev_dd, ev_read, ev_banner, ev_detected, ev_test_failed;
    repeat match goal with
           | H : flush_result _ _ = Exited 0 |- _ => rewrite H; clear H
           | H : dd_result _ _ = Exited 0 |- _ => rewrite H; clear H
           end;
    repeat match goal with
           | |- runs_checked [] => exact I
           | |- runs_checked [EvRun (checked _) _] => apply runs_checked_run_end
           | |- runs_checked (say _ _ ++ _) => apply runs_checked_say
           | |- runs_checked (say_report _ _ _ ++ _) =>
               apply runs_checked_say_report
           | |- runs_checked (say_report _ _ _) =>
               apply runs_checked_say_report_end
           | |- runs_checked (EvPrint _ :: _) => apply runs_checked_print
           | |- runs_checked (EvRead _ _ :: _) => apply runs_checked_read
           | |- runs_checked (EvRun (checked _) (Exited 0) :: _) =>
               apply runs_checked_run_ok
           end.
Qed.

(** C9: [run_check_subprocess] replaces whatever [check] the caller gave by
    [True] and calls [subprocess.run] once, with [check] set; it returns
    exactly when the call came to a process that ended with status 0, and
    otherwise raises: [SystemExit] for another status, and the exception of
    the call when no status came out of it.  In a run of the script every
    call is made with [check] set, and a call that did not come to a
    process ending with status 0 is the last event of the run. *)
Theorem failed_subprocess_stops_script :
  (forall (v : pyval) (kwargs : gmap string pyval) (env : Env) (st : State),
     run_check_subprocess (<["check" := v]> kwargs) env st
     = run_check_subprocess kwargs env st) /\
  (forall (kwargs : gmap string pyval) (env : Env) (st : State),
     let res := spawn env (spawned st) (checked kwargs) in
     log (run_check_subprocess kwargs env st).1
     = log st ++ [EvRun (checked kwargs) res] /\
     checked kwargs !! "check" = Some (VBool true) /\
     ((run_check_subprocess kwargs env st).2 = Ok tt <-> res = Exited 0) /\
     (forall rc,
        res = Exited rc -> rc <> 0 ->
        (run_check_subprocess kwargs env st).2 = Raise (SystemExit 1)) /\
     (res = SpawnFailed ->
      (run_check_subprocess kwargs env st).2 = Raise OSError) /\
     (forall c,
        res = Refused c ->
        (run_check_subprocess kwargs env st).2
        = Raise (exn_of_call_error c))) /\
  (forall (env : Env) (cli_args : Namespace),
     runs_checked (log (run_script env cli_args).1)).
Proof.
  split; [| split].
  - intros v kwargs env st. rewrite !run_check_subprocess_eval.
    rewrite checked_insert_check. reflexivity.
  - intros kwargs env st. cbv zeta. rewrite run_check_subprocess_eval.
    split; [reflexivity |].
    split; [apply checked_check |]. cbn [snd].
    destruct (spawn env (spawned st) (checked kwargs)) as [rc | | c]; simpl.
    + destruct (Z.eqb_spec rc 0) as [-> | Hrc].
      * split; [tauto |]. split; [intros rc [= <-] H; contradiction |].
        split; [discriminate | discriminate].
      * split; [split; [discriminate | intros [= ->]; contradiction] |].
        split; [reflexivity |]. split; discriminate.
    + split; [split; discriminate |].
      split; [discriminate |]. split; [reflexivity | discriminate].
    + split; [split; [destruct c; discriminate | discriminate] |].
      split; [discriminate |]. split; [discriminate |].
      intros c' [= <-]. reflexivity.
  - intros env cli_args.
    exact (runs_checked_run_shape _ _ _ _ (run_script_shape env cli_args)).
Qed.

Example run_check_subprocess_overrides_check :
  (run_check_subprocess
     {[ "args" := VStrList ["false"]; "check" := VBool false ]}
     (scripted_env [1] []) init_state).2 = Raise (SystemExit 1).
Proof. reflexivity. Qed.

(** An empty command: the library raises [IndexError] before any process
    exists, and the wrapper lets it through. *)
Example run_check_subprocess_empty_command :
  (run_check_subprocess {[ "args" := VStrList [] ]}
     {| int_max_str_digits := 4300;
        spawn := fun _ kwargs =>
                   if decide (kwargs !! "args" = Some (VStrList []))
                   then Refused CallIndexError else Exited 0;
        file_text := fun _ _ => None |}
     init_state).2 = Raise IndexError.
Proof. reflexivity. Qed.

Example dd_status_not_mirrored :
  dd_result (scripted_env [0; 3] [stat_before]) default_args = Exited 3 /\
  exit_status (run_script (scripted_env [0; 3] [stat_before]) default_args).2 = 1.
Proof. split; reflexivity. Qed.

(** * Further properties *)

(** ** The load computation *)

Lemma sum_from (l : list Z) (a : Z) : fold_left Z.add l a = a + sum l.
Proof.
  unfold sum. revert a. induction l as [| x l IH]; intros a; simpl.
  - lia.
  - rewrite (IH (a + x)), (IH (0 + x)). lia.
Qed.

Lemma sum_cons (x : Z) (l : list Z) : sum (x :: l) = x + sum l.
Proof. unfold sum at 1. simpl. apply sum_from. Qed.

Lemma sum_nil : sum [] = 0.
Proof. reflexivity. Qed.

Lemma monotone_sum (start_load end_load : list Z) :
  Forall2 Z.le start_load end_load -> sum start_load <= sum end_load.
Proof.
  induction 1 as [| x y s e Hxy _ IH];
    [rewrite sum_nil; lia | rewrite !sum_cons; lia].
Qed.

(** Between two snapshots whose counters only grow, no counter grows by
    more than the total. *)
Lemma monotone_counter_growth (start_load end_load : list Z) (i : nat) (a b : Z) :
  Forall2 Z.le start_load end_load ->
  start_load !! i = Some a ->
  end_load !! i = Some b ->
  0 <= b - a <= sum end_load - sum start_load.
Proof.
  intros Hle. revert i.
  induction Hle as [| x y s e Hxy Hse IH]; intros i Ha Hb; [discriminate Ha |].
  pose proof (monotone_sum _ _ Hse) as Hrest.
  rewrite !sum_cons. destruct i as [| i]; simpl in Ha, Hb.
  - injection Ha as ->. injection Hb as ->. lia.
  - specialize (IH i Ha Hb). lia.
Qed.

(** X1: between two snapshots of the same length, at least four entries,
    in which no counter decreases, the load is a percentage: between 0 and
    100 (the report being one that can be written when the verbose flag is
    set). *)
Theorem compute_cpu_load_percentage (start_load end_load : list Z)
    (verbose_mode : bool) (env : Env) (st : State) :
  Forall2 Z.le start_load end_load ->
  (4 <= length start_load)%nat ->
  (verbose_mode = true ->
   report_printable (int_max_str_digits env) start_load end_load) ->
  exists load,
    (compute_cpu_load start_load end_load verbose_mode env st).2 = Ok load /\
    0 <= load <= 100.
Proof.
  intros Hle Hlen Hp.
  pose proof (Forall2_length _ _ _ Hle) as Hlen'.
  destruct (lookup_lt_is_Some_2 start_load 3) as [a Ha]; [lia |].
  destruct (lookup_lt_is_Some_2 end_load 3) as [b Hb]; [lia |].
  pose proof (monotone_counter_growth _ _ _ _ _ Hle Ha Hb) as Hgrow.
  rewrite (compute_cpu_load_eval _ _ _ _ _ _ _ Ha Hb Hp). cbv zeta.
  destruct (Z.eqb_spec (sum end_load - sum start_load) 0) as [Hz | Hz].
  - exists 0. split; [reflexivity | lia].
  - eexists. split; [reflexivity |].
    set (dt := sum end_load - sum start_load) in *.
    split.
    + apply Z.div_pos; nia.
    + apply Z.div_le_upper_bound; nia.
Qed.

Lemma compute_cpu_load_percentage_witness :
  exists load,
    (compute_cpu_load [10; 0; 0; 90; 0] [13; 0; 0; 107; 0] true
       (scripted_env [] []) init_state).2 = Ok load /\
    0 <= load <= 100.
Proof.
  apply (compute_cpu_load_percentage [10; 0; 0; 90; 0] [13; 0; 0; 107; 0]).
  - repeat constructor; lia.
  - simpl. lia.
  - intros _. repeat (constructor; [right; vm_compute; lia |]). constructor.
Defined.

(** X2: the result is not clamped.  When the total grows and the idle
    counter shrinks the load is at least 100, and above 100 when the total
    grew by no more than a hundred times the loss; when the idle counter
    grows by more than the total the load is negative (the report being one
    that can be written when the verbose flag is set). *)
Theorem compute_cpu_load_not_clamped (start_load end_load : list Z)
    (verbose_mode : bool) (env : Env) (st : State) (start_idle end_idle : Z) :
  start_load !! 3%nat = Some start_idle ->
  end_load !! 3%nat = Some end_idle ->
  (verbose_mode = true ->
   report_printable (int_max_str_digits env) start_load end_load) ->
  0 < sum end_load - sum start_load ->
  exists load,
    (compute_cpu_load start_load end_load verbose_mode env st).2 = Ok load /\
    (end_idle < start_idle -> 100 <= load) /\
    (sum end_load - sum start_load <= 100 * (start_idle - end_idle) ->
     100 < load) /\
    (sum end_load - sum start_load < end_idle - start_idle -> load < 0).
Proof.
  intros Ha Hb Hp Hdt.
  rewrite (compute_cpu_load_eval _ _ _ _ _ _ _ Ha Hb Hp). cbv zeta.
  set (dt := sum end_load - sum start_load) in *.
  destruct (Z.eqb_spec dt 0) as [Hz | Hz]; [lia |].
  eexists. split; [reflexivity |]. repeat split; intros H.
  - apply Z.div_le_lower_bound; nia.
  - assert (101 <= ((dt - (end_idle - start_idle)) * 100) / dt)
      by (apply Z.div_le_lower_bound; nia).
    lia.
  - apply Z.div_lt_upper_bound; nia.
Qed.

Lemma compute_cpu_load_not_clamped_witness :
  exists load,
    (compute_cpu_load [0; 0; 0; 50] [40; 0; 0; 20] true
       (scripted_env [] []) init_state).2 = Ok load /\
    (20 < 50 -> 100 <= load) /\
    (sum [40; 0; 0; 20] - sum [0; 0; 0; 50] <= 100 * (50 - 20) -> 100 < load) /\
    (sum [40; 0; 0; 20] - sum [0; 0; 0; 50] < 20 - 50 -> load < 0).
Proof.
  apply (compute_cpu_load_not_clamped [0; 0; 0; 50] [40; 0; 0; 20] true
           (scripted_env [] []) init_state 50 20);
    [reflexivity | reflexivity | | vm_compute; reflexivity].
  intros _. repeat (constructor; [right; vm_compute; lia |]). constructor.
Defined.

Example compute_cpu_load_above_100 :
  (compute_cpu_load [0; 0; 0; 50] [40; 0; 0; 20] false
     (scripted_env [] []) init_state).2 = Ok 400.
Proof. reflexivity. Qed.

Lemma sum_zip_with_add (l c : list Z) :
  length l = length c -> sum (zip_with Z.add l c) = sum l + sum c.
Proof.
  revert c. induction l as [| x l IH]; intros [| y c] Hlen;
    try discriminate Hlen.
  - reflexivity.
  - cbn [zip_with]. rewrite !sum_cons, IH by (simpl in Hlen; lia). lia.
Qed.

(** X3: only the differences count.  Adding the same offsets to the
    counters of both snapshots does not change the result, as long as, with
    the verbose flag, the report can be written before and after the
    shift. *)
Theorem compute_cpu_load_shift_invariant (start_load end_load offsets : list Z)
    (verbose_mode : bool) (env : Env) (st : State) :
  length start_load = length offsets ->
  length end_load = length offsets ->
  (verbose_mode = true ->
   report_printable (int_max_str_digits env) start_load end_load /\
   report_printable (int_max_str_digits env)
     (zip_with Z.add start_load offsets) (zip_with Z.add end_load offsets)) ->
  (compute_cpu_load (zip_with Z.add start_load offsets)
     (zip_with Z.add end_load offsets) verbose_mode env st).2
  = (compute_cpu_load start_load end_load verbose_mode env st).2.
Proof.
  intros Hs He Hp.
  destruct (start_load !! 3%nat) as [a |] eqn:Ha.
  - assert (Hlt : (3 < length offsets)%nat).
    { rewrite <- Hs. eapply lookup_lt_Some. exact Ha. }
    destruct (lookup_lt_is_Some_2 offsets 3 Hlt) as [c Hc].
    destruct (lookup_lt_is_Some_2 end_load 3) as [b Hb]; [lia |].
    rewrite (compute_cpu_load_eval _ _ _ _ _ _ _ Ha Hb)
      by (intros Hv; exact (proj1 (Hp Hv))).
    rewrite (compute_cpu_load_eval _ _ _ _ _ (a + c) (b + c)).
    + rewrite !sum_zip_with_add by assumption. cbv zeta.
      replace (sum end_load + sum offsets - (sum start_load + sum offsets))
        with (sum end_load - sum start_load) by lia.
      replace (b + c - (a + c)) with (b - a) by lia. reflexivity.
    + rewrite lookup_zip_with, Ha, Hc. reflexivity.
    + rewrite lookup_zip_with, Hb, Hc. reflexivity.
    + intros Hv. exact (proj2 (Hp Hv)).
  - rewrite !compute_cpu_load_short; [reflexivity | auto |].
    left. rewrite lookup_zip_with, Ha. reflexivity.
Qed.

Lemma compute_cpu_load_shift_invariant_witness :
  (compute_cpu_load (zip_with Z.add [10; 0; 0; 90] [1000; 20; 3; 4000])
     (zip_with Z.add [20; 0; 0; 100] [1000; 20; 3; 4000]) true
     (scripted_env [] []) init_state).2
  = (compute_cpu_load [10; 0; 0; 90] [20; 0; 0; 100] true
       (scripted_env [] []) init_state).2.
Proof.
  apply (compute_cpu_load_shift_invariant
           [10; 0; 0; 90] [20; 0; 0; 100] [1000; 20; 3; 4000]);
    [reflexivity | reflexivity |].
  intros _.
  split; repeat (constructor; [right; vm_compute; lia |]); constructor.
Defined.

(** The offsets count for the report: a shift can push a total beyond
    what the interpreter writes. *)
Example compute_cpu_load_shift_overflow :
  (compute_cpu_load [0; 0; 0; 0] [1; 0; 0; 0] true
     (short_limit_env [] []) init_state).2 = Ok 100 /\
  (compute_cpu_load (zip_with Z.add [0; 0; 0; 0] [10 ^ 640; 0; 0; 0])
     (zip_with Z.add [1; 0; 0; 0] [10 ^ 640; 0; 0; 0]) true
     (short_limit_env [] []) init_state).2 = Raise ValueError.
Proof. split; vm_compute; reflexivity. Qed.

Lemma report_printable_swap (max_digits : nat) (start_load end_load : list Z)
    (start_idle end_idle : Z) :
  start_load !! 3%nat = Some start_idle ->
  end_load !! 3%nat = Some end_idle ->
  report_printable max_digits end_load start_load ->
  report_printable max_digits start_load end_load.
Proof.
  intros Ha Hb. unfold report_printable.
  rewrite (report_quantities_idle _ _ _ _ Ha Hb).
  rewrite (report_quantities_idle _ _ _ _ Hb Ha).
  intros H.
  inversion H as [| ? ? H1 Hp1]; subst.
  inversion Hp1 as [| ? ? H2 Hp2]; subst.
  inversion Hp2 as [| ? ? H3 Hp3]; subst.
  inversion Hp3 as [| ? ? H4 _]; subst.
  repeat (constructor; [| ]); try assumption; [| | constructor].
  - apply within_digit_limit_opp.
    replace (- (sum end_load - sum start_load - (end_idle - start_idle)))
      with (sum start_load - sum end_load - (start_idle - end_idle)) by lia.
    exact H3.
  - apply within_digit_limit_opp.
    replace (- (sum end_load - sum start_load))
      with (sum start_load - sum end_load) by lia.
    exact H4.
Qed.

(** X4: the result does not tell which snapshot came first: exchanging
    the two snapshots gives the same value, or the same [IndexError]. *)
Theorem compute_cpu_load_symmetric (start_load end_load : list Z)
    (verbose_mode : bool) (env : Env) (st : State) :
  (compute_cpu_load end_load start_load verbose_mode env st).2
  = (compute_cpu_load start_load end_load verbose_mode env st).2.
Proof.
  destruct (start_load !! 3%nat) as [a |] eqn:Ha;
    destruct (end_load !! 3%nat) as [b |] eqn:Hb;
    try (rewrite !compute_cpu_load_short by auto; reflexivity).
  assert (Hquiet :
            (compute_cpu_load end_load start_load false env st).2
            = (compute_cpu_load start_load end_load false env st).2).
  { rewrite (compute_cpu_load_quiet _ _ _ _ _ _ Ha Hb).
    rewrite (compute_cpu_load_quiet _ _ _ _ _ _ Hb Ha). cbv zeta. cbn [snd].
    set (dt := sum end_load - sum start_load).
    replace (sum start_load - sum end_load) with (- dt) by (unfold dt; lia).
    destruct (Z.eqb_spec dt 0) as [Hz | Hz].
    - rewrite Hz. reflexivity.
    - destruct (Z.eqb_spec (- dt) 0) as [Hz' | _]; [lia |].
      f_equal.
      replace ((- dt - (a - b)) * 100) with (- ((dt - (b - a)) * 100)) by lia.
      apply Z.div_opp_opp. exact Hz. }
  destruct verbose_mode; [| exact Hquiet].
  destruct (report_printable_dec (int_max_str_digits env) start_load end_load)
    as [Hp | Hp].
  - pose proof (report_printable_swap _ _ _ _ _ Hb Ha Hp) as Hp'.
    rewrite (compute_cpu_load_verbose _ _ _ _ _ _ Ha Hb Hp).
    rewrite (compute_cpu_load_verbose _ _ _ _ _ _ Hb Ha Hp').
    rewrite (compute_cpu_load_quiet _ _ _ _ _ _ Ha Hb) in Hquiet.
    rewrite (compute_cpu_load_quiet _ _ _ _ _ _ Hb Ha) in Hquiet.
    exact Hquiet.
  - assert (Hp' : ~ report_printable (int_max_str_digits env)
                      end_load start_load).
    { intros H. apply Hp. exact (report_printable_swap _ _ _ _ _ Ha Hb H). }
    rewrite (compute_cpu_load_unprintable _ _ _ _ _ _ Ha Hb Hp).
    rewrite (compute_cpu_load_unprintable _ _ _ _ _ _ Hb Ha Hp').
    reflexivity.
Qed.

(** X5: the two ends of the scale.  When the idle counter did not move
    and the total did, the load is 100; when the idle counter moved as much
    as the total, the load is 0 (the report being one that can be written
    when the verbose flag is set). *)
Theorem compute_cpu_load_extremes (start_load end_load : list Z)
    (verbose_mode : bool) (env : Env) (st : State) (start_idle end_idle : Z) :
  start_load !! 3%nat = Some start_idle ->
  end_load !! 3%nat = Some end_idle ->
  (verbose_mode = true ->
   report_printable (int_max_str_digits env) start_load end_load) ->
  (end_idle = start_idle ->
   sum end_load <> sum start_load ->
   (compute_cpu_load start_load end_load verbose_mode env st).2 = Ok 100) /\
  (end_idle - start_idle = sum end_load - sum start_load ->
   (compute_cpu_load start_load end_load verbose_mode env st).2 = Ok 0).
Proof.
  intros Ha Hb Hp.
  rewrite (compute_cpu_load_eval _ _ _ _ _ _ _ Ha Hb Hp). cbv zeta.
  set (dt := sum end_load - sum start_load).
  split.
  - intros -> Hne. destruct (Z.eqb_spec dt 0) as [Hz | Hz];
      [unfold dt in Hz; lia |].
    f_equal. replace (dt - (start_idle - start_idle)) with dt by lia.
    rewrite Z.mul_comm. apply Z.div_mul. exact Hz.
  - intros ->. destruct (dt =? 0); [reflexivity |].
    rewrite Z.sub_diag. reflexivity.
Qed.

Lemma compute_cpu_load_extremes_witness :
  (compute_cpu_load [1; 2; 3; 40] [5; 6; 7; 40] true
     (scripted_env [] []) init_state).2 = Ok 100 /\
  (compute_cpu_load [1; 2; 3; 40] [1; 2; 3; 49] true
     (scripted_env [] []) init_state).2 = Ok 0.
Proof.
  split.
  - apply (compute_cpu_load_extremes [1; 2; 3; 40] [5; 6; 7; 40] true
             (scripted_env [] []) init_state 40 40 eq_refl eq_refl);
      [| reflexivity | discriminate].
    intros _. repeat (constructor; [right; vm_compute; lia |]). constructor.
  - apply (compute_cpu_load_extremes [1; 2; 3; 40] [1; 2; 3; 49] true
             (scripted_env [] []) init_state 40 49 eq_refl eq_refl);
      [| reflexivity].
    intros _. repeat (constructor; [right; vm_compute; lia |]). constructor.
Defined.

(** X6: the computation touches nothing but the standard output.  It
    starts no process and opens no file; it prints nothing unless the
    verbose flag is set and the call succeeds, and then it prints one
    message. *)
Theorem compute_cpu_load_effects (start_load end_load : list Z)
    (verbose_mode : bool) (env : Env) (st : State) :
  spawned (compute_cpu_load start_load end_load verbose_mode env st).1
  = spawned st /\
  opened (compute_cpu_load start_load end_load verbose_mode env st).1
  = opened st /\
  (verbose_mode = false \/
   is_ok (compute_cpu_load start_load end_load verbose_mode env st).2 = false ->
   log (compute_cpu_load start_load end_load verbose_mode env st).1 = log st) /\
  (verbose_mode = true ->
   is_ok (compute_cpu_load start_load end_load verbose_mode env st).2 = true ->
   exists text,
     log (compute_cpu_load start_load end_load verbose_mode env st).1
     = log st ++ [EvPrint text]).
Proof.
  destruct (compute_cpu_load_cases start_load end_load verbose_mode env st)
    as [-> | [(_ & _ & ->) | (load & _ & ->)]];
    cbn [fst snd spawned opened log is_ok].
  - split; [reflexivity |]. split; [reflexivity |].
    split; [intros _; reflexivity | intros _ H; discriminate H].
  - split; [reflexivity |]. split; [reflexivity |].
    split; [intros _; reflexivity | intros _ H; discriminate H].
  - split; [reflexivity |]. split; [reflexivity |]. split.
    + intros [-> | H]; [apply app_nil_r | discriminate H].
    + intros -> _. eexists. reflexivity.
Qed.

Lemma compute_cpu_load_effects_witness :
  exists text,
    log (compute_cpu_load [10; 0; 0; 90] [20; 0; 0; 100] true
           (scripted_env [] []) init_state).1
    = log init_state ++ [EvPrint text].
Proof.
  apply (compute_cpu_load_effects [10; 0; 0; 90] [20; 0; 0; 100] true
           (scripted_env [] []) init_state); reflexivity.
Defined.

(** ** Decimal numerals *)

Lemma string_of_uint_digits (d : Decimal.uint) :
  all_digits (NilEmpty.string_of_uint d) = true.
Proof. induction d; simpl; auto. Qed.

Lemma decimal_value_uint_acc (d : Decimal.uint) (acc : positive) :
  decimal_value_from (Z.pos acc) (NilEmpty.string_of_uint d)
  = Z.pos (Pos.of_uint_acc d acc).
Proof.
  revert acc. induction d; intros acc; cbn [NilEmpty.string_of_uint
    decimal_value_from Pos.of_uint_acc]; [reflexivity | ..];
    rewrite <- IHd; f_equal; cbn [digit_value]; simpl default; lia.
Qed.

Lemma decimal_value_uint (d : Decimal.uint) :
  decimal_value (NilEmpty.string_of_uint d) = Z.of_N (Pos.of_uint d).
Proof.
  unfold decimal_value.
  induction d; cbn [NilEmpty.string_of_uint decimal_value_from Pos.of_uint];
    [reflexivity | exact IHd | ..];
    cbn [Z.of_N]; rewrite <- decimal_value_uint_acc; reflexivity.
Qed.

Lemma decimal_of_Z_pos (p : positive) :
  decimal_of_Z (Z.pos p) = NilEmpty.string_of_uint (Pos.to_uint p).
Proof.
  unfold decimal_of_Z. cbn [Z.to_int NilZero.string_of_int NilZero.string_of_uint].
  pose proof (DecimalPos.Unsigned.to_uint_nonnil p) as Hnn.
  destruct (Pos.to_uint p); [contradiction | reflexivity ..].
Qed.

Lemma decimal_of_Z_neg (p : positive) :
  decimal_of_Z (Z.neg p) = String "-" (decimal_of_Z (Z.pos p)).
Proof. reflexivity. Qed.

Lemma decimal_value_decimal_of_Z_pos (p : positive) :
  decimal_value (decimal_of_Z (Z.pos p)) = Z.pos p.
Proof.
  rewrite decimal_of_Z_pos, decimal_value_uint, DecimalPos.Unsigned.of_to.
  reflexivity.
Qed.

Lemma decimal_of_Z_pos_digits (p : positive) :
  decimal_of_Z (Z.pos p) <> "" /\ all_digits (decimal_of_Z (Z.pos p)) = true.
Proof.
  rewrite decimal_of_Z_pos. split; [| apply string_of_uint_digits].
  pose proof (DecimalPos.Unsigned.to_uint_nonnil p) as Hnn.
  destruct (Pos.to_uint p); [contradiction | discriminate ..].
Qed.

(** A minus sign in front of a run of digits negates it. *)
Lemma py_int_minus_digit_token (max_digits : nat) (s : string) :
  s <> "" -> digit_token max_digits s ->
  py_int max_digits (String "-" s) = Ok (- decimal_value s).
Proof.
  intros Hne [Hd Hlen]. destruct s as [| c s]; [contradiction |].
  pose proof Hd as Hd'. simpl in Hd'. apply andb_prop in Hd' as [Hc _].
  destruct (digit_is_plain c Hc) as (Hsp & Hplus & Hminus & Hus).
  unfold py_int. cbn [lstrip].
  change (is_space "-"%char) with false. cbv iota.
  change (Ascii.eqb "-"%char "+"%char) with false.
  change (Ascii.eqb "-"%char "-"%char) with true.
  cbv iota. rewrite Hus.
  rewrite (scan_digits_all_digits _ 0 0 Hd).
  cbn [Nat.add String.length Nat.eqb lstrip].
  replace (negb (max_digits =? 0)%nat && (max_digits <? S (String.length s))%nat)
    with false; [reflexivity |].
  symmetry. destruct Hlen as [-> | Hle]; [reflexivity |].
  apply andb_false_iff. right. apply Nat.ltb_ge. exact Hle.
Qed.

(** [int()] reads the numeral of [n] back as [n], as long as [n] has no
    more digits than the interpreter allows. *)
Lemma py_int_decimal_of_Z (max_digits : nat) (n : Z) :
  within_digit_limit max_digits n ->
  py_int max_digits (decimal_of_Z n) = Ok n.
Proof.
  intros Hlim. destruct n as [| p | p].
  - apply (py_int_digit_token max_digits "0"); [discriminate |].
    split; [reflexivity | exact Hlim].
  - destruct (decimal_of_Z_pos_digits p) as [Hne Hd].
    rewrite py_int_digit_token; [| exact Hne | split; [exact Hd | exact Hlim]].
    rewrite decimal_value_decimal_of_Z_pos. reflexivity.
  - destruct (decimal_of_Z_pos_digits p) as [Hne Hd].
    rewrite decimal_of_Z_neg.
    rewrite py_int_minus_digit_token;
      [| exact Hne | split; [exact Hd | exact Hlim]].
    rewrite decimal_value_decimal_of_Z_pos. reflexivity.
Qed.

Lemma not_space_char (c : ascii) :
  is_space c = false ->
  Ascii.eqb c space = false /\ Ascii.eqb c newline = false.
Proof.
  intros H. split.
  - destruct (Ascii.eqb_spec c space) as [-> | _]; [discriminate H | reflexivity].
  - destruct (Ascii.eqb_spec c newline) as [-> | _]; [discriminate H | reflexivity].
Qed.

Lemma all_digits_plain (s : string) :
  all_digits s = true -> no_space s = true /\ no_newline s = true.
Proof.
  induction s as [| c s IH]; simpl; intros H; [auto |].
  apply andb_prop in H as [Hc Hs]. destruct (IH Hs) as [IH1 IH2].
  destruct (digit_is_plain c Hc) as (Hsp & _).
  destruct (not_space_char c Hsp) as [-> ->]. simpl. auto.
Qed.

Lemma decimal_of_Z_plain (n : Z) :
  decimal_of_Z n <> "" /\ no_space (decimal_of_Z n) = true /\ no_newline (decimal_of_Z n) = true.
Proof.
  destruct n as [| p | p].
  - repeat split. discriminate.
  - destruct (decimal_of_Z_pos_digits p) as [Hne Hd].
    split; [exact Hne | apply all_digits_plain; exact Hd].
  - destruct (decimal_of_Z_pos_digits p) as [Hne Hd]. rewrite decimal_of_Z_neg.
    destruct (all_digits_plain _ Hd) as [H1 H2].
    split; [discriminate |]. simpl. rewrite H1, H2. auto.
Qed.

(** ** Writing a line of counters and reading it back *)

Lemma string_app_assoc (a b c : string) : (a +:+ b) +:+ c = a +:+ (b +:+ c).
Proof.
  induction a as [| x a IH]; [reflexivity |].
  change (String x ((a +:+ b) +:+ c) = String x (a +:+ (b +:+ c))).
  f_equal. exact IH.
Qed.

Lemma fields_space (s : string) : fields (String space s) = fields s.
Proof.
  unfold fields. cbn [str_split]. change (Ascii.eqb space space) with true.
  cbv iota. apply filter_cons_False. intros H. apply H. reflexivity.
Qed.

Lemma fields_spaces (g : nat) (s : string) : fields (spaces g +:+ s) = fields s.
Proof.
  induction g as [| g IH]; [reflexivity |].
  change (fields (String space (spaces g +:+ s)) = fields s).
  rewrite fields_space. exact IH.
Qed.

Lemma str_split_token (tok rest : string) :
  no_space tok = true ->
  str_split space (tok +:+ String space rest) = tok :: str_split space rest.
Proof.
  induction tok as [| c tok IH]; intros H.
  - change (str_split space (String space rest) = "" :: str_split space rest).
    cbn [str_split]. change (Ascii.eqb space space) with true. reflexivity.
  - cbn [no_space] in H. apply andb_prop in H as [Hc Htok].
    apply negb_true_iff in Hc.
    change (str_split space (String c (tok +:+ String space rest))
            = String c tok :: str_split space rest).
    cbn [str_split]. rewrite Hc, (IH Htok). reflexivity.
Qed.

Lemma str_split_token_end (tok : string) :
  no_space tok = true -> str_split space tok = [tok].
Proof.
  induction tok as [| c tok IH]; intros H; [reflexivity |].
  cbn [no_space] in H. apply andb_prop in H as [Hc Htok].
  apply negb_true_iff in Hc.
  cbn [str_split]. rewrite Hc, (IH Htok). reflexivity.
Qed.

Lemma fields_token (tok rest : string) :
  tok <> "" -> no_space tok = true ->
  fields (tok +:+ String space rest) = tok :: fields rest.
Proof.
  intros Hne Hns. unfold fields. rewrite str_split_token by exact Hns.
  apply filter_cons_True. exact Hne.
Qed.

Lemma fields_token_end (tok : string) :
  tok <> "" -> no_space tok = true -> fields tok = [tok].
Proof.
  intros Hne Hns. unfold fields. rewrite str_split_token_end by exact Hns.
  rewrite filter_cons_True by exact Hne. reflexivity.
Qed.

Lemma fields_render_counters (l : list (nat * Z)) :
  fields (render_counters l) = map (fun p => decimal_of_Z p.2) l.
Proof.
  unfold render_counters.
  induction l as [| [g n] l IH]; [reflexivity |].
  destruct (decimal_of_Z_plain n) as (Hne & Hns & _).
  destruct l as [| q l].
  - cbn [map str_join fst snd]. rewrite fields_spaces.
    apply fields_token_end; assumption.
  - change (str_join " " (map (fun p => spaces p.1 +:+ decimal_of_Z p.2) ((g, n) :: q :: l)))
      with ((spaces g +:+ decimal_of_Z n)
              +:+ String space (str_join " "
                    (map (fun p => spaces p.1 +:+ decimal_of_Z p.2) (q :: l)))).
    rewrite string_app_assoc, fields_spaces, fields_token by assumption.
    rewrite IH. reflexivity.
Qed.

Lemma no_newline_app (a b : string) :
  no_newline a = true -> no_newline b = true -> no_newline (a +:+ b) = true.
Proof.
  induction a as [| c a IH]; simpl; intros Ha Hb; [exact Hb |].
  apply andb_prop in Ha as [-> Ha]. simpl. auto.
Qed.

Lemma no_newline_spaces (g : nat) : no_newline (spaces g) = true.
Proof. induction g; simpl; auto. Qed.

Lemma no_newline_render_counters (l : list (nat * Z)) :
  no_newline (render_counters l) = true.
Proof.
  unfold render_counters.
  induction l as [| [g n] l IH]; [reflexivity |].
  destruct (decimal_of_Z_plain n) as (_ & _ & Hnl).
  assert (Htok : no_newline (spaces g +:+ decimal_of_Z n) = true)
    by (apply no_newline_app; [apply no_newline_spaces | exact Hnl]).
  destruct l as [| q l]; [exact Htok |].
  change (str_join " " (map (fun p => spaces p.1 +:+ decimal_of_Z p.2) ((g, n) :: q :: l)))
    with ((spaces g +:+ decimal_of_Z n)
            +:+ String space (str_join " "
                  (map (fun p => spaces p.1 +:+ decimal_of_Z p.2) (q :: l)))).
  apply no_newline_app; [exact Htok |]. simpl. exact IH.
Qed.

Lemma snapshot_at_rendered (env : Env) (n : nat)
    (counters : list (nat * Z)) (rest : string) :
  Forall (fun p => within_digit_limit (int_max_str_digits env) p.2) counters ->
  file_text env n STAT_FILE_PATH
  = Some ("cpu " +:+ render_counters counters +:+ String newline rest) ->
  snapshot_at env n = Ok (map snd counters).
Proof.
  intros Hlim Htext. unfold snapshot_at. rewrite Htext.
  rewrite parse_cpu_stats_cpu.
  rewrite first_line_app by apply no_newline_render_counters.
  rewrite fields_render_counters. clear Htext.
  induction Hlim as [| [g c] l Hc _ IH]; [reflexivity |].
  cbn [map list_map snd]. cbn [snd] in Hc.
  rewrite (py_int_decimal_of_Z _ _ Hc), IH. reflexivity.
Qed.

(** X7: a line of counters written in the format of /proc/stat is read
    back as these counters.  Whatever the number of spaces before each
    counter and whatever follows the first line, the snapshot is the list
    of the counters written, in their order; this holds for negative
    counters too. *)
Theorem get_cpu_load_reads_back (env : Env) (st : State)
    (counters : list (nat * Z)) (rest : string) :
  Forall (fun p => within_digit_limit (int_max_str_digits env) p.2) counters ->
  file_text env (opened st) STAT_FILE_PATH
  = Some ("cpu " +:+ render_counters counters +:+ String newline rest) ->
  (get_cpu_load env st).2 = Ok (map snd counters).
Proof.
  intros Hlim Htext. rewrite get_cpu_load_eval. cbn [snd].
  exact (snapshot_at_rendered env (opened st) counters rest Hlim Htext).
Qed.

Lemma get_cpu_load_reads_back_witness :
  (get_cpu_load (scripted_env [] [stat_before]) init_state).2
  = Ok (map snd [(1%nat, 10); (0%nat, 0); (0%nat, 0); (0%nat, 90); (0%nat, 0)]).
Proof.
  apply (get_cpu_load_reads_back (scripted_env [] [stat_before]) init_state
           [(1%nat, 10); (0%nat, 0); (0%nat, 0); (0%nat, 90); (0%nat, 0)]
           ("cpu0 10 0 0 90 0" +:+ linesep)).
  - repeat (constructor; [right; vm_compute; lia |]). constructor.
  - vm_compute. reflexivity.
Defined.

Example get_cpu_load_reads_back_negative :
  (get_cpu_load
     (scripted_env []
        ["cpu " +:+ render_counters [(3%nat, -7); (2%nat, 12)]
           +:+ String newline "intr 5"])
     init_state).2 = Ok [-7; 12].
Proof. vm_compute. reflexivity. Qed.

(** ** Reading the counter source *)

(** X8: every call reads the counter source anew.  A call opens
    /proc/stat once, starts no process and prints nothing; its result is
    the snapshot of the text it is given, and the next call gets the
    snapshot of the next text: nothing is kept from one call to the
    other. *)
Theorem get_cpu_load_fresh_read (env : Env) (st : State) :
  spawned (get_cpu_load env st).1 = spawned st /\
  opened (get_cpu_load env st).1 = S (opened st) /\
  log (get_cpu_load env st).1
  = log st ++ [EvRead STAT_FILE_PATH (file_text env (opened st) STAT_FILE_PATH)] /\
  (get_cpu_load env st).2 = snapshot_at env (opened st) /\
  (get_cpu_load env (get_cpu_load env st).1).2 = snapshot_at env (S (opened st)).
Proof.
  rewrite !get_cpu_load_eval. cbn [fst snd spawned opened log]. auto.
Qed.

Example get_cpu_load_twice :
  (get_cpu_load (scripted_env [] [stat_before; stat_after]) init_state).2
  = Ok [10; 0; 0; 90; 0] /\
  (get_cpu_load (scripted_env [] [stat_before; stat_after])
     (get_cpu_load (scripted_env [] [stat_before; stat_after]) init_state).1).2
  = Ok [20; 0; 0; 100; 0].
Proof. split; vm_compute; reflexivity. Qed.

(** ** The checked subprocess wrapper, continued *)

(** X10: the wrapper is transparent but for [check].  It calls
    [subprocess.run] exactly once, with every keyword of the caller
    unchanged except [check], which is [True]; it opens no file and prints
    nothing, whatever comes of the call. *)
Theorem run_check_subprocess_passes_kwargs (kwargs : gmap string pyval)
    (env : Env) (st : State) :
  exists used,
    (run_check_subprocess kwargs env st).1
    = {| spawned := S (spawned st); opened := opened st;
         log := log st ++ [EvRun used (spawn env (spawned st) used)] |} /\
    used !! "check" = Some (VBool true) /\
    forall k, k <> "check" -> used !! k = kwargs !! k.
Proof.
  rewrite run_check_subprocess_eval. exists (checked kwargs).
  split; [reflexivity |]. split; [apply checked_check |].
  intros k Hk. unfold checked. apply lookup_insert_ne. congruence.
Qed.

Example run_check_subprocess_keeps_dd_keywords :
  log (run_check_subprocess (dd_kwargs default_args)
         (scripted_env [] []) init_state).1
  = [EvRun (<["check" := VBool true]> (dd_kwargs default_args)) (Exited 0)].
Proof. reflexivity. Qed.

(** ** The verbose flag and the run *)

Lemma compute_cpu_load_any_verbose (start_load end_load : list Z)
    (v v' : bool) (env : Env) (st : State) :
  report_printable (int_max_str_digits env) start_load end_load ->
  (compute_cpu_load start_load end_load v env st).2
  = (compute_cpu_load start_load end_load v' env st).2.
Proof.
  intros Hp.
  destruct (start_load !! 3%nat) as [a |] eqn:Ha;
    [| rewrite !compute_cpu_load_short by auto; reflexivity].
  destruct (end_load !! 3%nat) as [b |] eqn:Hb;
    [| rewrite !compute_cpu_load_short by auto; reflexivity].
  rewrite !(compute_cpu_load_eval _ _ _ _ _ _ _ Ha Hb) by (intros _; exact Hp).
  reflexivity.
Qed.

Lemma measured_load_with_verbose (env : Env) (cli_args : Namespace) (b : bool) :
  (forall start_load end_load,
     snapshot_at env 0 = Ok start_load ->
     snapshot_at env 1 = Ok end_load ->
     report_printable (int_max_str_digits env) start_load end_load) ->
  measured_load env (with_verbose b cli_args) = measured_load env cli_args.
Proof.
  intros Hp. unfold measured_load.
  destruct (snapshot_at env 0) as [s |]; [| reflexivity].
  destruct (snapshot_at env 1) as [s' |]; [| reflexivity].
  apply compute_cpu_load_any_verbose. apply Hp; reflexivity.
Qed.

(** X11: the verbose flag never changes the processes started and the
    files read, in the same world; and when the report of the computation
    can be written, it changes neither the outcome nor the exit status of
    the run: only what is printed. *)
Theorem run_script_verbose_irrelevant (env : Env) (cli_args : Namespace)
    (b : bool) :
  steps_of (log (run_script env (with_verbose b cli_args)).1)
  = steps_of (log (run_script env cli_args).1) /\
  ((forall start_load end_load,
      snapshot_at env 0 = Ok start_load ->
      snapshot_at env 1 = Ok end_load ->
      report_printable (int_max_str_digits env) start_load end_load) ->
   (run_script env (with_verbose b cli_args)).2 = (run_script env cli_args).2 /\
   exit_status (run_script env (with_verbose b cli_args)).2
   = exit_status (run_script env cli_args).2).
Proof.
  split.
  - rewrite (run_shape_steps _ _ _ _
               (run_script_shape env (with_verbose b cli_args))).
    rewrite (run_shape_steps _ _ _ _ (run_script_shape env cli_args)).
    reflexivity.
  - intros Hp.
    assert (Hout : (run_script env (with_verbose b cli_args)).2
                   = (run_script env cli_args).2).
    { rewrite !run_script_outcome. unfold expected_outcome.
      rewrite (measured_load_with_verbose _ _ _ Hp). reflexivity. }
    split; [exact Hout | rewrite Hout; reflexivity].
Qed.

Lemma run_script_verbose_irrelevant_witness :
  (run_script (scripted_env [] [stat_before; stat_light])
     (with_verbose true default_args)).2
  = (run_script (scripted_env [] [stat_before; stat_light]) default_args).2 /\
  exit_status
    (run_script (scripted_env [] [stat_before; stat_light])
       (with_verbose true default_args)).2
  = exit_status
      (run_script (scripted_env [] [stat_before; stat_light]) default_args).2.
Proof.
  apply (run_script_verbose_irrelevant
           (scripted_env [] [stat_before; stat_light]) default_args true).
  intros start_load end_load Hs He.
  vm_compute in Hs. vm_compute in He.
  injection Hs as <-. injection He as <-.
  repeat (constructor; [right; vm_compute; lia |]). constructor.
Defined.

(** With a report that cannot be written, the verbose flag turns a
    successful measurement into a [ValueError]: the limit is 640 digits and
    the total of the second snapshot has 641. *)
Example run_script_verbose_overflow :
  (run_script
     (short_limit_env []
        [ text_of_lines ["cpu 0 0 0 0"];
          text_of_lines ["cpu " +:+ decimal_of_Z (10 ^ 639)
                           +:+ " " +:+ decimal_of_Z (9 * 10 ^ 639)
                           +:+ " 0 0"] ])
     {| max_load := 100; xfer := 1; verbose := false;
        device_filename := "/dev/sda" |}).2 = Ok tt /\
  (run_script
     (short_limit_env []
        [ text_of_lines ["cpu 0 0 0 0"];
          text_of_lines ["cpu " +:+ decimal_of_Z (10 ^ 639)
                           +:+ " " +:+ decimal_of_Z (9 * 10 ^ 639)
                           +:+ " 0 0"] ])
     {| max_load := 100; xfer := 1; verbose := true;
        device_filename := "/dev/sda" |}).2 = Raise ValueError.
Proof. split; vm_compute; reflexivity. Qed.

(** X12: whatever the world answers, the exit status of the script is 0
    or 1; the status of a failed process never becomes the status of the
    script. *)
Theorem exit_status_zero_or_one (env : Env) (cli_args : Namespace) :
  exit_status (run_script env cli_args).2 = 0 \/
  exit_status (run_script env cli_args).2 = 1.
Proof.
  destruct (run_shape_exit_status _ _ _ _ (run_script_shape env cli_args))
    as [[_ H] | (e & _ & H)]; auto.
Qed.

(** X9: for arguments as [parse_cli] returns them, when /proc/stat cannot
    be read for the first snapshot, the [OSError] is not caught: the script
    ends with it, with exit status 1, after the flush and the attempt to
    read, and the bulk read is never started. *)
Theorem counter_source_unavailable (env : Env) (cli_args : Namespace) :
  parsed_args env cli_args ->
  flush_result env cli_args = Exited 0 ->
  file_text env 0 STAT_FILE_PATH = None ->
  (run_script env cli_args).2 = Raise OSError /\
  exit_status (run_script env cli_args).2 = 1 /\
  external_ops cli_args (log (run_script env cli_args).1)
  = [OpFlush; OpSnapshot].
Proof.
  intros Hparsed Hf Hread.
  assert (Hs : snapshot_at env 0 = Raise OSError)
    by (unfold snapshot_at; rewrite Hread; reflexivity).
  rewrite run_script_external_ops, run_script_outcome.
  rewrite (expected_steps_parsed _ _ Hparsed).
  unfold expected_outcome.
  rewrite (banner_outcome_parsed _ _ Hparsed), Hf, Hs.
  cbn [run_result Z.eqb exit_status].
  repeat split.
  rewrite !external_ops_cons, op_of_ev_flush, op_of_ev_read. reflexivity.
Qed.

Lemma counter_source_unavailable_witness :
  (run_script (scripted_env [] []) default_args).2 = Raise OSError /\
  exit_status (run_script (scripted_env [] []) default_args).2 = 1 /\
  external_ops default_args (log (run_script (scripted_env [] []) default_args).1)
  = [OpFlush; OpSnapshot].
Proof.
  apply (counter_source_unavailable (scripted_env [] []) default_args);
    [split; right; vm_compute; lia | reflexivity | reflexivity].
Defined.

(** A namespace that [parse_cli] cannot return, because [int()] refuses
    an argument of 641 digits when the limit is 640: the banner cannot be
    written, and the script stops before its first step. *)
Example banner_of_unparsed_args :
  run_script (short_limit_env [] [])
    {| max_load := 30; xfer := 10 ^ 640; verbose := false;
       device_filename := "/dev/sda" |}
  = (init_state, Raise ValueError).
Proof. vm_compute. reflexivity. Qed.

(** X13: exit status 0 means that the whole measurement took place: both
    processes ended with status 0, both snapshots were read, the load was
    computed and is at most max-load, and the four external steps were
    taken in their order. *)
Theorem exit_zero_means_measured (env : Env) (cli_args : Namespace) :
  exit_status (run_script env cli_args).2 = 0 ->
  flush_result env cli_args = Exited 0 /\
  dd_result env cli_args = Exited 0 /\
  (exists start_load end_load load,
     snapshot_at env 0 = Ok start_load /\
     snapshot_at env 1 = Ok end_load /\
     measured_load env cli_args = Ok load /\
     load <= max_load cli_args) /\
  external_ops cli_args (log (run_script env cli_args).1)
  = [OpFlush; OpSnapshot; OpBulkRead; OpSnapshot].
Proof.
  intros Hexit.
  rewrite run_script_external_ops.
  pose proof (run_script_shape env cli_args) as Hshape.
  destruct (run_shape_exit_status _ _ _ _ Hshape) as [[Hok _] | (e & _ & H1)];
    [| congruence].
  rewrite Hok in Hshape.
  remember (log (run_script env cli_args).1) as l eqn:Hl. clear Hl Hok Hexit.
  inversion Hshape as
    [ | | | | | | | | s s' load Hp Hf Hs Hd Hs' Hm Hlim Hle ]; subst.
  split; [exact Hf |]. split; [exact Hd |].
  split; [exists s, s', load; auto |].
  rewrite (expected_steps_parsed _ _ Hp), Hf, Hs, Hd. cbn [run_result Z.eqb].
  rewrite !external_ops_cons, op_of_ev_flush, op_of_ev_dd, !op_of_ev_read.
  reflexivity.
Qed.

Lemma exit_zero_means_measured_witness :
  flush_result (scripted_env [] [stat_before; stat_light]) default_args
  = Exited 0 /\
  dd_result (scripted_env [] [stat_before; stat_light]) default_args
  = Exited 0 /\
  (exists start_load end_load load,
     snapshot_at (scripted_env [] [stat_before; stat_light]) 0 = Ok start_load /\
     snapshot_at (scripted_env [] [stat_before; stat_light]) 1 = Ok end_load /\
     measured_load (scripted_env [] [stat_before; stat_light]) default_args
     = Ok load /\
     load <= max_load default_args) /\
  external_ops default_args
    (log (run_script (scripted_env [] [stat_before; stat_light]) default_args).1)
  = [OpFlush; OpSnapshot; OpBulkRead; OpSnapshot].
Proof.
  apply (exit_zero_means_measured
           (scripted_env [] [stat_before; stat_light]) default_args).
  vm_compute. reflexivity.
Defined.

(** ** What the user is told *)

Lemma ev_detected_not_test_failed (load : Z) : ev_detected load <> ev_test_failed.
Proof.
  unfold ev_detected, ev_test_failed. intros H. injection H as H.
  discriminate H.
Qed.

Lemma ev_report_not_test_failed (start_load end_load : list Z) :
  ev_report start_load end_load <> ev_test_failed.
Proof.
  unfold ev_report, ev_test_failed. intros H. injection H as H.
  discriminate H.
Qed.

(** X14: the verdict that is printed.  For arguments as [parse_cli]
    returns them and a load that can be written: when the load is at most
    max-load, the last thing printed is the detected load; when it is above
    max-load, the detected load is followed by the failure banner, which
    ends the log.  The banner is the last event of a run only in that case:
    a run that ends because a process or a read failed does not print
    it. *)
Theorem verdict_messages (env : Env) (cli_args : Namespace) :
  (forall load,
     parsed_args env cli_args ->
     flush_result env cli_args = Exited 0 ->
     dd_result env cli_args = Exited 0 ->
     measured_load env cli_args = Ok load ->
     within_digit_limit (int_max_str_digits env) load ->
     (load <= max_load cli_args ->
      last (log (run_script env cli_args).1) = Some (ev_detected load)) /\
     (max_load cli_args < load ->
      [ev_detected load; ev_test_failed]
        `suffix_of` log (run_script env cli_args).1)) /\
  (last (log (run_script env cli_args).1) = Some ev_test_failed ->
   exists load,
     measured_load env cli_args = Ok load /\ max_load cli_args < load).
Proof.
  pose proof (run_script_shape env cli_args) as Hshape.
  remember (log (run_script env cli_args).1) as l eqn:Hl.
  remember (run_script env cli_args).2 as r eqn:Hr.
  clear Hl Hr.
  destruct Hshape as
    [ Hno | e Hp He | e Hp Hf He | s e Hp Hf Hs He | s e Hp Hf Hs Hd He
    | s s' e Hp Hf Hs Hd Hs' He
    | s s' load' Hp Hf Hs Hd Hs' Hm Hl
    | s s' load' Hp Hf Hs Hd Hs' Hm Hl Hgt
    | s s' load' Hp Hf Hs Hd Hs' Hm Hl Hle ].
  all: split;
    [ intros load Hp0 Hf0 Hd0 Hm0 Hl0
    | destruct (verbose cli_args); cbn; intros Hlast ].
  all: try discriminate Hlast.
  all: try (injection Hlast as Hlast; discriminate Hlast).
  all: try (injection Hlast as Hlast;
            exfalso; exact (ev_detected_not_test_failed _ Hlast)).
  all: try (injection Hlast as Hlast;
            exfalso; exact (ev_report_not_test_failed _ _ Hlast)).
  all: try (exists load'; auto; fail).
  all: try contradiction.
  all: try (rewrite Hf0 in He; discriminate He).
  all: try (rewrite Hd0 in He; discriminate He).
  all: try (unfold measured_load in Hm0; rewrite ?Hs, ?He in Hm0;
            discriminate Hm0).
  all: try congruence.
  - assert (load' = load) by congruence. subst load'. split; [lia |].
    intros _. cbn [app].
    repeat match goal with
           | |- ?t `suffix_of` ?t => reflexivity
           | |- _ `suffix_of` _ :: _ => apply suffix_cons_r
           | |- _ `suffix_of` _ ++ _ => apply suffix_app_r
           end.
  - assert (load' = load) by congruence. subst load'. split; [| lia].
    intros _. destruct (verbose cli_args); reflexivity.
Qed.

Lemma verdict_messages_witness :
  last (log (run_script (scripted_env [] [stat_before; stat_light])
               default_args).1)
  = Some (ev_detected 15).
Proof.
  apply (verdict_messages (scripted_env [] [stat_before; stat_light])
           default_args).
  - split; right; vm_compute; lia.
  - reflexivity.
  - reflexivity.
  - vm_compute. reflexivity.
  - right. vm_compute. lia.
  - vm_compute. discriminate.
Defined.

(** ** From two texts of /proc/stat to the verdict *)

Lemma percentage_bounds (diff_total diff_idle : Z) :
  0 <= diff_idle <= diff_total -> diff_total <> 0 ->
  0 <= (diff_total - diff_idle) * 100 / diff_total <= 100.
Proof.
  intros H Hne. split.
  - apply Z.div_pos; nia.
  - apply Z.div_le_upper_bound; nia.
Qed.

(** A percentage has at most three digits. *)
Lemma percentage_digits (load : Z) :
  0 <= load <= 100 ->
  (String.length (decimal_of_Z (Z.abs load)) <= 3)%nat.
Proof.
  intros H. rewrite Z.abs_eq by lia.
  assert (Hall : forallb
                   (fun n => (String.length (decimal_of_Z (Z.of_nat n)) <=? 3)%nat)
                   (seq 0 101) = true) by (vm_compute; reflexivity).
  rewrite forallb_forall in Hall. specialize (Hall (Z.to_nat load)).
  rewrite Z2Nat.id in Hall by lia. apply Nat.leb_le, Hall.
  apply in_seq. lia.
Qed.

Lemma percentage_within_limit (max_digits : nat) (load : Z) :
  interpreter_limit max_digits -> 0 <= load <= 100 ->
  within_digit_limit max_digits load.
Proof.
  intros [-> | Hlim] H; [left; reflexivity | right].
  pose proof (percentage_digits load H). lia.
Qed.

(** X15: reading and computing together.  For arguments as [parse_cli]
    returns them and a digit limit that the interpreter accepts: when the
    two texts read from /proc/stat begin with an aggregate line of at least
    four counters, no counter of the second is below the same counter of the
    first, and the report can be written if the verbose flag is set, the
    load that the script measures is a percentage between 0 and 100; with
    both processes successful the exit status is then 0 exactly when that
    percentage is at most max-load. *)
Theorem measured_load_percentage (env : Env) (cli_args : Namespace)
    (before after : list (nat * Z)) (rest rest' : string) :
  interpreter_limit (int_max_str_digits env) ->
  parsed_args env cli_args ->
  Forall (fun p => within_digit_limit (int_max_str_digits env) p.2) before ->
  Forall (fun p => within_digit_limit (int_max_str_digits env) p.2) after ->
  file_text env 0 STAT_FILE_PATH
  = Some ("cpu " +:+ render_counters before +:+ String newline rest) ->
  file_text env 1 STAT_FILE_PATH
  = Some ("cpu " +:+ render_counters after +:+ String newline rest') ->
  Forall2 Z.le (map snd before) (map snd after) ->
  (4 <= length before)%nat ->
  (verbose cli_args = true ->
   report_printable (int_max_str_digits env) (map snd before) (map snd after)) ->
  exists load,
    measured_load env cli_args = Ok load /\
    0 <= load <= 100 /\
    (flush_result env cli_args = Exited 0 ->
     dd_result env cli_args = Exited 0 ->
     (exit_status (run_script env cli_args).2 = 0 <-> load <= max_load cli_args)).
Proof.
  intros Hlimit Hparsed Hlim Hlim' Htext Htext' Hle Hlen Hprint.
  pose proof (snapshot_at_rendered env 0 before rest Hlim Htext) as Hs.
  pose proof (snapshot_at_rendered env 1 after rest' Hlim' Htext') as Hs'.
  pose proof (Forall2_length _ _ _ Hle) as Hlen'.
  rewrite !length_map in Hlen'.
  destruct (lookup_lt_is_Some_2 (map snd before) 3) as [a Ha];
    [rewrite length_map; lia |].
  destruct (lookup_lt_is_Some_2 (map snd after) 3) as [b Hb];
    [rewrite length_map; lia |].
  pose proof (monotone_counter_growth _ _ _ _ _ Hle Ha Hb) as Hgrow.
  assert (Hload : exists load,
             measured_load env cli_args = Ok load /\ 0 <= load <= 100).
  { rewrite (measured_load_eval env cli_args _ _ init_state Hs Hs').
    rewrite (compute_cpu_load_eval _ _ _ _ _ _ _ Ha Hb Hprint). cbv zeta.
    destruct (Z.eqb_spec (sum (map snd after) - sum (map snd before)) 0)
      as [Hz | Hz].
    - exists 0. split; [reflexivity | lia].
    - eexists. split; [reflexivity |].
      apply percentage_bounds; assumption. }
  destruct Hload as (load & Hm & Hrange).
  exists load. split; [exact Hm |]. split; [exact Hrange |].
  intros Hf Hd. rewrite run_script_outcome. unfold expected_outcome.
  rewrite (banner_outcome_parsed _ _ Hparsed), Hf, Hs, Hd, Hm.
  rewrite (py_str_within _ _ (percentage_within_limit _ _ Hlimit Hrange)).
  cbn [run_result Z.eqb].
  destruct (Z.gtb_spec load (max_load cli_args)) as [Hgt | Hle'];
    cbn [exit_status]; split; intros H; try lia; try reflexivity.
  discriminate H.
Qed.

Lemma measured_load_percentage_witness :
  exists load,
    measured_load (scripted_env [] [stat_before; stat_light])
      (with_verbose true default_args) = Ok load /\
    0 <= load <= 100 /\
    (flush_result (scripted_env [] [stat_before; stat_light])
       (with_verbose true default_args) = Exited 0 ->
     dd_result (scripted_env [] [stat_before; stat_light])
       (with_verbose true default_args) = Exited 0 ->
     (exit_status
        (run_script (scripted_env [] [stat_before; stat_light])
           (with_verbose true default_args)).2
      = 0 <-> load <= max_load (with_verbose true default_args))).
Proof.
  apply (measured_load_percentage
           (scripted_env [] [stat_before; stat_light])
           (with_verbose true default_args)
           [(1%nat, 10); (0%nat, 0); (0%nat, 0); (0%nat, 90); (0%nat, 0)]
           [(1%nat, 13); (0%nat, 0); (0%nat, 0); (0%nat, 107); (0%nat, 0)]
           ("cpu0 10 0 0 90 0" +:+ linesep) ("cpu0 13 0 0 107 0" +:+ linesep)).
  - right. simpl. lia.
  - split; right; vm_compute; lia.
  - repeat (constructor; [right; vm_compute; lia |]). constructor.
  - repeat (constructor; [right; vm_compute; lia |]). constructor.
  - vm_compute. reflexivity.
  - vm_compute. reflexivity.
  - repeat (constructor; [vm_compute; discriminate |]). constructor.
  - simpl. lia.
  - intros _. repeat (constructor; [right; vm_compute; lia |]). constructor.
Defined.
